(** * CRUD-go: the person directory service of [server.go]

    A shallow embedding of the five HTTP handlers of [server.go]
    ([listarPessoas], [obterPessoa], [adicionarPessoa], [removerPessoa],
    [modificarPessoa]) and of the parts of the Go runtime they call:
    [strconv], the [http.ResponseWriter], [encoding/json] and
    [database/sql].  The handlers are written once, over any storage
    driver and any JSON decoder; an in-memory table with the schema of
    [configurarDB] and a JSON reader instantiate them for the worked
    examples. *)

From Stdlib Require Import ZArith Lia Ascii DecimalString DecimalZ DecimalPos.
From stdpp Require Import gmap strings list sorting.

Local Open Scope Z_scope.

(** ** Bytes and text

    A Go [string] is a sequence of bytes; Rocq's [string] is the same. *)

Definition byte_val (c : ascii) : Z := Z.of_N (N_of_ascii c).
Definition byte_of (n : Z) : ascii := ascii_of_N (Z.to_N n).
Definition chr (n : Z) : string := String (byte_of n) "".

Definition dquote : string := chr 34.
Definition newline : string := chr 10.
Definition backslash : string := chr 92.

(** ** The [error] interface

    The handlers tell errors apart in one place only: [obterPessoa]
    compares with the sentinel [sql.ErrNoRows].  Every other error is used
    through its [Error()] text. *)

Inductive error : Type :=
  | ErrNoRows
  | errorString (msg : string).

Definition Error_ (e : error) : string :=
  match e with
  | ErrNoRows => "sql: no rows in result set"
  | errorString msg => msg
  end.

Global Instance error_eq_dec : EqDecision error.
Proof. solve_decision. Defined.

(** ** Machine integers

    [int] and [int64] on the 64-bit targets of the module ([go 1.22.1]). *)

Definition intSize : Z := 64.
Definition minInt64 : Z := - 2 ^ 63.
Definition maxInt64 : Z := 2 ^ 63 - 1.

Definition in_int64 (z : Z) : bool := (minInt64 <=? z) && (z <=? maxInt64).

(** The conversion [int(id)] of an [int64]: two's complement wrap-around to
    [intSize] bits. *)
Definition int_of_int64 (z : Z) : Z :=
  (z + 2 ^ (intSize - 1)) mod 2 ^ intSize - 2 ^ (intSize - 1).

(** ** package strconv *)

Module strconv.

(** [Itoa]: the decimal text of an integer, ["-"] first when negative,
    no leading zeros. *)
Definition Itoa (z : Z) : string := NilZero.string_of_int (Z.to_int z).

Definition digit_of (c : ascii) : option Z :=
  let n := byte_val c in
  if (48 <=? n) && (n <=? 57) then Some (n - 48) else None.

(** The digit loop of [ParseUint] in base 10: every byte has to be a
    digit. *)
Fixpoint digits_val (acc : Z) (s : string) : option Z :=
  match s with
  | EmptyString => Some acc
  | String c s' =>
      match digit_of c with
      | Some d => digits_val (10 * acc + d) s'
      | None => None
      end
  end.

(** [Atoi] is [ParseInt(s, 10, 0)]: an optional sign, then at least one
    digit and nothing else ([ErrSyntax] otherwise), and a value that fits
    [int] ([ErrRange] otherwise).  The caller only tests [err != nil], so
    both errors are [None]. *)
Definition Atoi (s : string) : option Z :=
  match s with
  | EmptyString => None
  | String c s' =>
      let neg := bool_decide (byte_val c = 45) in
      let signed := neg || bool_decide (byte_val c = 43) in
      let ds := if signed then s' else s in
      match ds with
      | EmptyString => None
      | _ =>
          match digits_val 0 ds with
          | Some n =>
              let v := if neg then - n else n in
              if in_int64 v then Some v else None
          | None => None
          end
      end
  end.

End strconv.

(** ** package net/http *)

Module http.

Definition StatusOK : Z := 200.
Definition StatusNoContent : Z := 204.
Definition StatusNotModified : Z := 304.
Definition StatusBadRequest : Z := 400.
Definition StatusNotFound : Z := 404.
Definition StatusUnsupportedMediaType : Z := 415.
Definition StatusInternalServerError : Z := 500.

(** [type Header map[string][]string] *)
Abbreviation Header := (gmap string (list string)).

(** [h.Get(key)]: the first value stored under the key, [""] when there
    is none.  The handlers pass ["Content-Type"], which is already in
    canonical form, as are the keys of a request received by the
    server. *)
Definition Get (h : Header) (key : string) : string :=
  match h !! key with
  | Some (v :: _) => v
  | _ => ""
  end.

(** [h.Set(key, value)] replaces whatever the key held. *)
Definition Set_ (h : Header) (key value : string) : Header :=
  <[key := [value]]> h.

(** What a handler reads of a [*http.Request]: the header, the body and
    the variables the router took from the path ([mux.Vars]). *)
Record Request : Type := mkRequest {
  ReqHeader : Header;
  ReqBody : string;
  Vars : gmap string string
}.

(** [params["id"]] on a Go map: the zero value [""] for a missing key. *)
Definition var (r : Request) (key : string) : string :=
  default "" (Vars r !! key).

(** The [http.ResponseWriter] of the server: the header map under
    construction, the status line once it is written (with the header as
    it was sent), and the body bytes written so far. *)
Record ResponseWriter : Type := mkResponse {
  RespHeader : Header;
  Wrote : option (Z * Header);
  Body : string
}.

Definition newResponse : ResponseWriter :=
  {| RespHeader := ∅; Wrote := None; Body := "" |}.

Definition Header_Set (w : ResponseWriter) (key value : string)
  : ResponseWriter :=
  {| RespHeader := Set_ (RespHeader w) key value;
     Wrote := Wrote w; Body := Body w |}.

(** [w.WriteHeader(code)]: the first call fixes status and header, a
    later call is ignored. *)
Definition WriteHeader (w : ResponseWriter) (code : Z) : ResponseWriter :=
  match Wrote w with
  | Some _ => w
  | None =>
      {| RespHeader := RespHeader w;
         Wrote := Some (code, RespHeader w); Body := Body w |}
  end.

Definition bodyAllowedForStatus (status : Z) : bool :=
  if (100 <=? status) && (status <=? 199) then false
  else if status =? StatusNoContent then false
  else if status =? StatusNotModified then false
  else true.

(** [w.Write(data)]: writes the status line with 200 when no
    [WriteHeader] came before; a status without body drops the data. *)
Definition Write (w : ResponseWriter) (data : string) : ResponseWriter :=
  let w1 := WriteHeader w StatusOK in
  match Wrote w1 with
  | Some (code, _) =>
      if bodyAllowedForStatus code
      then {| RespHeader := RespHeader w1; Wrote := Wrote w1;
              Body := Body w1 +:+ data |}
      else w1
  | None => w1
  end.

(** [http.Error(w, msg, code)] *)
Definition Error (w : ResponseWriter) (msg : string) (code : Z)
  : ResponseWriter :=
  let w := Header_Set w "Content-Type" "text/plain; charset=utf-8" in
  let w := Header_Set w "X-Content-Type-Options" "nosniff" in
  let w := WriteHeader w code in
  Write w (msg +:+ newline).

(** The status the client receives: the server answers 200 when the
    handler returns without having written anything. *)
Definition Status (w : ResponseWriter) : Z :=
  match Wrote w with
  | Some (code, _) => code
  | None => StatusOK
  end.

(** The header as sent with the status line. *)
Definition SentHeader (w : ResponseWriter) : Header :=
  match Wrote w with
  | Some (_, h) => h
  | None => RespHeader w
  end.

End http.

(** ** Results of fallible calls: Go's [(value, err)] pairs *)

Inductive result (A : Type) : Type :=
  | Ok (a : A)
  | Err (e : error).
Arguments Ok {A} a.
Arguments Err {A} e.

(** ** The entity of [server.go] *)

(** [type Pessoa struct { ID int `json:"id"`; Nome string `json:"nome"` }] *)
Record Pessoa : Type := mkPessoa {
  ID : Z;
  Nome : string
}.

Global Instance Pessoa_eq_dec : EqDecision Pessoa.
Proof. solve_decision. Defined.

(** The zero value of [var p Pessoa]. *)
Definition zeroPessoa : Pessoa := {| ID := 0; Nome := "" |}.

(** A Go slice is [nil] or holds elements; [var listaPessoas []Pessoa]
    starts as [nil], and [append] always gives a slice that is not. *)
Definition slice (A : Type) : Type := option (list A).

Definition nil_slice {A : Type} : slice A := None.

Definition append {A : Type} (s : slice A) (x : A) : slice A :=
  Some (default [] s ++ [x]).

Global Instance result_bind : MBind result :=
  λ A B f r, match r with Ok a => f a | Err e => Err e end.

(** ** package unicode/utf8 *)

Module utf8.

Definition RuneError : Z := 65533.

Definition is_cont (b : Z) : bool := (128 <=? b) && (b <=? 191).

(** [DecodeRuneInString]: the first rune of the text and its width in
    bytes; [(RuneError, 1)] for an invalid or truncated encoding. *)
Definition DecodeRuneInString (s : string) : Z * nat :=
  match s with
  | EmptyString => (RuneError, 0%nat)
  | String c0 t0 =>
      let p0 := byte_val c0 in
      if p0 <? 128 then (p0, 1%nat)
      else if (p0 <? 194) || (244 <? p0) then (RuneError, 1%nat)
      else
        let sz := if p0 <? 224 then 2 else if p0 <? 240 then 3 else 4 in
        let lo := if p0 =? 224 then 160 else if p0 =? 240 then 144 else 128 in
        let hi := if p0 =? 237 then 159 else if p0 =? 244 then 143 else 191 in
        match t0 with
        | EmptyString => (RuneError, 1%nat)
        | String c1 t1 =>
            let b1 := byte_val c1 in
            if (b1 <? lo) || (hi <? b1) then (RuneError, 1%nat)
            else if sz =? 2
            then (Z.lor (Z.shiftl (Z.land p0 31) 6) (Z.land b1 63), 2%nat)
            else
              match t1 with
              | EmptyString => (RuneError, 1%nat)
              | String c2 t2 =>
                  let b2 := byte_val c2 in
                  if negb (is_cont b2) then (RuneError, 1%nat)
                  else if sz =? 3
                  then (Z.lor (Z.shiftl (Z.land p0 15) 12)
                          (Z.lor (Z.shiftl (Z.land b1 63) 6) (Z.land b2 63)),
                        3%nat)
                  else
                    match t2 with
                    | EmptyString => (RuneError, 1%nat)
                    | String c3 _ =>
                        let b3 := byte_val c3 in
                        if negb (is_cont b3) then (RuneError, 1%nat)
                        else (Z.lor (Z.shiftl (Z.land p0 7) 18)
                                (Z.lor (Z.shiftl (Z.land b1 63) 12)
                                   (Z.lor (Z.shiftl (Z.land b2 63) 6)
                                      (Z.land b3 63))),
                              4%nat)
                    end
              end
        end
  end.

(** [EncodeRune]: the UTF-8 bytes of a rune; a surrogate or a value out
    of range is written as [RuneError]. *)
Definition EncodeRune (r : Z) : string :=
  let r :=
    if (r <? 0) || (1114111 <? r) || ((55296 <=? r) && (r <=? 57343))
    then RuneError else r in
  if r <=? 127 then chr r
  else if r <=? 2047
  then chr (Z.lor 192 (Z.shiftr r 6)) +:+ chr (Z.lor 128 (Z.land r 63))
  else if r <=? 65535
  then chr (Z.lor 224 (Z.shiftr r 12))
         +:+ chr (Z.lor 128 (Z.land (Z.shiftr r 6) 63))
         +:+ chr (Z.lor 128 (Z.land r 63))
  else chr (Z.lor 240 (Z.shiftr r 18))
         +:+ chr (Z.lor 128 (Z.land (Z.shiftr r 12) 63))
         +:+ chr (Z.lor 128 (Z.land (Z.shiftr r 6) 63))
         +:+ chr (Z.lor 128 (Z.land r 63)).

End utf8.

(** ** package encoding/json: the encoder

    What [json.NewEncoder(w).Encode(v)] writes for the two types the
    handlers encode, [Pessoa] and [[]Pessoa]; HTML escaping is on, as it is
    for a fresh encoder. *)

Module json.

Definition hex (n : Z) : string :=
  chr (if n <? 10 then 48 + n else 87 + n).

(** [htmlSafeSet]: the ASCII bytes copied as they are. *)
Definition htmlSafeSet (b : Z) : bool :=
  (32 <=? b) && (b <? 128)
  && negb (bool_decide (b = 34 ∨ b = 38 ∨ b = 60 ∨ b = 62 ∨ b = 92)).

Definition escape (b : Z) : string :=
  if bool_decide (b = 92 ∨ b = 34) then backslash +:+ chr b
  else if b =? 8 then "\b"
  else if b =? 12 then "\f"
  else if b =? 10 then "\n"
  else if b =? 13 then "\r"
  else if b =? 9 then "\t"
  else "\u00" +:+ hex (Z.shiftr b 4) +:+ hex (Z.land b 15).

(** The loop of [appendString].  [copy] counts the remaining bytes of a
    rune that is copied through, [drop] those of a rune already written
    as an escape. *)
Fixpoint appendString_loop (copy drop : nat) (s : string) : string :=
  match s with
  | EmptyString => ""
  | String c t =>
      match copy, drop with
      | S k, _ => String c (appendString_loop k drop t)
      | O, S k => appendString_loop O k t
      | O, O =>
          let b := byte_val c in
          if b <? 128 then
            if htmlSafeSet b then String c (appendString_loop O O t)
            else escape b +:+ appendString_loop O O t
          else
            let '(r, size) := utf8.DecodeRuneInString s in
            if (r =? utf8.RuneError) && (size =? 1)%nat
            then "\ufffd" +:+ appendString_loop O O t
            else if (r =? 8232) || (r =? 8233)
            then "\u202" +:+ hex (Z.land r 15)
                   +:+ appendString_loop O (size - 1) t
            else String c (appendString_loop (size - 1) O t)
      end
  end.

Definition appendString (s : string) : string :=
  dquote +:+ appendString_loop O O s +:+ dquote.

(** A struct is an object with its fields in declaration order. *)
Definition Marshal_Pessoa (p : Pessoa) : string :=
  "{" +:+ dquote +:+ "id" +:+ dquote +:+ ":" +:+ strconv.Itoa (ID p)
    +:+ "," +:+ dquote +:+ "nome" +:+ dquote +:+ ":"
    +:+ appendString (Nome p) +:+ "}".

Fixpoint join_elems (l : list string) : string :=
  match l with
  | [] => ""
  | [x] => x
  | x :: l' => x +:+ "," +:+ join_elems l'
  end.

(** A nil slice is [null], any other slice an array. *)
Definition Marshal_slice (s : slice Pessoa) : string :=
  match s with
  | None => "null"
  | Some l => "[" +:+ join_elems (Marshal_Pessoa <$> l) +:+ "]"
  end.

(** [Encode] writes the value followed by a newline, in one [Write]. *)
Definition Encode_Pessoa (w : http.ResponseWriter) (p : Pessoa)
  : http.ResponseWriter :=
  http.Write w (Marshal_Pessoa p +:+ newline).

Definition Encode_slice (w : http.ResponseWriter) (s : slice Pessoa)
  : http.ResponseWriter :=
  http.Write w (Marshal_slice s +:+ newline).

(** [json.NewDecoder(r.Body).Decode(&p)]: from the bytes of the body and
    the struct as it is before the call, either an error or the struct
    after it.  The handlers are written over any such decoder. *)
Class Decoder : Type :=
  Decode : string -> Pessoa -> result Pessoa.

End json.

(** ** package database/sql

    The handlers reach the database through three calls of the shared
    handle [dbConn]: [Query], [QueryRow(...).Scan] and [Exec].  A driver
    gives them a meaning over its own connection state; every call returns
    the state it leaves behind. *)

Module sql.

(** The arguments bound to the [?] placeholders. *)
Inductive arg : Type :=
  | Text (s : string)
  | Int (z : Z).

(** [sql.Result] *)
Record Result : Type := mkResult {
  LastInsertId : result Z;
  RowsAffected : result Z
}.

(** What [Scan(&p.ID, &p.Nome)] leaves in the two destinations. *)
Definition scanned : Type := result (Z * string).

Class Conn (DB : Type) : Type := {
  (** [rows, err := db.Query(q, args...)]; the rows are given with the
      outcome of the [Scan] of each one that [rows.Next()] reaches. *)
  Query : DB -> string -> list arg -> result (list scanned) * DB;
  (** [db.QueryRow(q, args...).Scan(&p.ID, &p.Nome)] *)
  QueryRow_Scan : DB -> string -> list arg -> scanned * DB;
  (** [db.Exec(q, args...)] *)
  Exec : DB -> string -> list arg -> result Result * DB
}.

End sql.

(** ** The handlers of [server.go]

    [dbConn] is the package-level handle; a handler takes the connection
    state with the request and returns it with the response. *)

Section Handlers.

Context {DB : Type} `{!sql.Conn DB} `{!json.Decoder}.

(** The loop [for rows.Next() { ... rows.Scan ... append }] of
    [listarPessoas]: the first failing [Scan] ends the handler. *)
Fixpoint scanRows (rows : list sql.scanned) (listaPessoas : slice Pessoa)
  : result (slice Pessoa) :=
  match rows with
  | [] => Ok listaPessoas
  | Err err :: _ => Err err
  | Ok (id, nome) :: rows' =>
      let p := {| ID := id; Nome := nome |} in
      scanRows rows' (append listaPessoas p)
  end.

Definition listarPessoas (w : http.ResponseWriter) (r : http.Request)
    (dbConn : DB) : http.ResponseWriter * DB :=
  match sql.Query dbConn "SELECT id, nome FROM individuos" [] with
  | (Err err, dbConn) =>
      (http.Error w ("Erro ao buscar pessoas: " +:+ Error_ err)
         http.StatusInternalServerError, dbConn)
  | (Ok rows, dbConn) =>
      match scanRows rows nil_slice with
      | Err err =>
          (http.Error w ("Erro ao escanear pessoa: " +:+ Error_ err)
             http.StatusInternalServerError, dbConn)
      | Ok listaPessoas =>
          let w := http.Header_Set w "Content-Type" "application/json" in
          (json.Encode_slice w listaPessoas, dbConn)
      end
  end.

Definition obterPessoa (w : http.ResponseWriter) (r : http.Request)
    (dbConn : DB) : http.ResponseWriter * DB :=
  let id := http.var r "id" in
  match sql.QueryRow_Scan dbConn
          "SELECT id, nome FROM individuos WHERE id = ?" [sql.Text id] with
  | (Err err, dbConn) =>
      if decide (err = ErrNoRows)
      then (http.Error w "Pessoa não encontrada" http.StatusNotFound,
            dbConn)
      else (http.Error w ("Erro ao buscar pessoa: " +:+ Error_ err)
              http.StatusInternalServerError, dbConn)
  | (Ok (pid, pnome), dbConn) =>
      let p := {| ID := pid; Nome := pnome |} in
      let w := http.Header_Set w "Content-Type" "application/json" in
      (json.Encode_Pessoa w p, dbConn)
  end.

Definition adicionarPessoa (w : http.ResponseWriter) (r : http.Request)
    (dbConn : DB) : http.ResponseWriter * DB :=
  let w := http.Header_Set w "Content-Type" "application/json" in
  if decide (http.Get (http.ReqHeader r) "Content-Type"
             ≠ "application/json")
  then (http.Error w "O Content-Type deve ser application/json"
          http.StatusUnsupportedMediaType, dbConn)
  else
    match json.Decode (http.ReqBody r) zeroPessoa with
    | Err err =>
        (http.Error w ("Erro ao decodificar JSON: " +:+ Error_ err)
           http.StatusBadRequest, dbConn)
    | Ok novaPessoa =>
        match sql.Exec dbConn "INSERT INTO individuos (nome) VALUES (?)"
                [sql.Text (Nome novaPessoa)] with
        | (Err err, dbConn) =>
            (http.Error w ("Erro ao inserir pessoa: " +:+ Error_ err)
               http.StatusInternalServerError, dbConn)
        | (Ok resultado, dbConn) =>
            match sql.LastInsertId resultado with
            | Err err =>
                (http.Error w
                   ("Erro ao obter ID da nova pessoa: " +:+ Error_ err)
                   http.StatusInternalServerError, dbConn)
            | Ok id =>
                let novaPessoa :=
                  {| ID := int_of_int64 id; Nome := Nome novaPessoa |} in
                (json.Encode_Pessoa w novaPessoa, dbConn)
            end
        end
    end.

Definition removerPessoa (w : http.ResponseWriter) (r : http.Request)
    (dbConn : DB) : http.ResponseWriter * DB :=
  let id := http.var r "id" in
  match sql.Exec dbConn "DELETE FROM individuos WHERE id = ?"
          [sql.Text id] with
  | (Err err, dbConn) =>
      (http.Error w ("Erro ao deletar pessoa: " +:+ Error_ err)
         http.StatusInternalServerError, dbConn)
  | (Ok _, dbConn) =>
      (http.WriteHeader w http.StatusNoContent, dbConn)
  end.

Definition modificarPessoa (w : http.ResponseWriter) (r : http.Request)
    (dbConn : DB) : http.ResponseWriter * DB :=
  let w := http.Header_Set w "Content-Type" "application/json" in
  if decide (http.Get (http.ReqHeader r) "Content-Type"
             ≠ "application/json")
  then (http.Error w "O Content-Type deve ser application/json"
          http.StatusUnsupportedMediaType, dbConn)
  else
    match strconv.Atoi (http.var r "id") with
    | None => (http.Error w "ID inválido" http.StatusBadRequest, dbConn)
    | Some id =>
        match json.Decode (http.ReqBody r) zeroPessoa with
        | Err err =>
            (http.Error w ("Erro ao decodificar JSON: " +:+ Error_ err)
               http.StatusBadRequest, dbConn)
        | Ok pessoaAtualizada =>
            match sql.Exec dbConn
                    "UPDATE individuos SET nome = ? WHERE id = ?"
                    [sql.Text (Nome pessoaAtualizada); sql.Int id] with
            | (Err err, dbConn) =>
                (http.Error w ("Erro ao atualizar pessoa: " +:+ Error_ err)
                   http.StatusInternalServerError, dbConn)
            | (Ok resultado, dbConn) =>
                match sql.RowsAffected resultado with
                | Err err =>
                    (http.Error w
                       ("Erro ao verificar linhas afetadas: "
                          +:+ Error_ err)
                       http.StatusInternalServerError, dbConn)
                | Ok linhasAfetadas =>
                    if decide (linhasAfetadas = 0)
                    then (http.Error w "Pessoa não encontrada"
                            http.StatusNotFound, dbConn)
                    else
                      let pessoaAtualizada :=
                        {| ID := id; Nome := Nome pessoaAtualizada |} in
                      (json.Encode_Pessoa w pessoaAtualizada, dbConn)
                end
            end
        end
    end.

End Handlers.

(** ** The storage: a MySQL table in memory

    The table of [configurarDB],
    [individuos (id INT AUTO_INCREMENT PRIMARY KEY, nome VARCHAR(255) NOT NULL)],
    and the five statements the handlers send, under the server's default
    strict SQL mode and the driver's default settings (an [UPDATE] reports
    the rows it changed, not the rows it matched). *)

Module mysql.

Definition maxINT : Z := 2147483647.

Record Server : Type := mkServer {
  individuos : gmap Z string;   (* id -> nome; the key is the PRIMARY KEY *)
  AUTO_INCREMENT : Z;           (* the next generated id *)
  alive : bool                  (* whether the server can be reached *)
}.

(** A fresh schema, as [CREATE TABLE IF NOT EXISTS] leaves it. *)
Definition empty : Server :=
  {| individuos := ∅; AUTO_INCREMENT := 1; alive := true |}.

(** [CHAR_LENGTH]: the characters of a UTF-8 text are its bytes that are
    not continuation bytes. *)
Fixpoint CHAR_LENGTH (s : string) : Z :=
  match s with
  | EmptyString => 0
  | String c t =>
      (if utf8.is_cont (byte_val c) then 0 else 1) + CHAR_LENGTH t
  end.

Definition is_blank (b : Z) : bool :=
  (b =? 32) || ((9 <=? b) && (b <=? 13)).

Fixpoint skip_blanks (s : string) : string :=
  match s with
  | EmptyString => ""
  | String c t => if is_blank (byte_val c) then skip_blanks t else s
  end.

(** The leading digits of a text: their value, whether there was one,
    and what follows them. *)
Fixpoint digits_prefix (acc : Z) (seen : bool) (s : string)
  : Z * bool * string :=
  match s with
  | EmptyString => (acc, seen, "")
  | String c t =>
      match strconv.digit_of c with
      | Some d => digits_prefix (10 * acc + d) true t
      | None => (acc, seen, s)
      end
  end.

(** A text compared with the INT column is read as a number: blanks, a
    sign, digits.  The result is the value of that prefix (0 without
    digits) and whether the text was nothing but a number.  Only integer
    syntax is read; a fraction or an exponent counts as text after the
    number. *)
Definition number_of_text (s : string) : Z * bool :=
  let s := skip_blanks s in
  let '(neg, s) :=
    match s with
    | String c t =>
        if byte_val c =? 45 then (true, t)
        else if byte_val c =? 43 then (false, t)
        else (false, s)
    | EmptyString => (false, s)
    end in
  let '(v, seen, rest) := digits_prefix 0 false s in
  (if neg then - v else v,
   seen && bool_decide (skip_blanks rest = "")).

Definition bad_connection : error :=
  errorString "dial tcp 127.0.0.1:3306: connect: connection refused".

Definition data_too_long : error :=
  errorString "Error 1406 (22001): Data too long for column 'nome' at row 1".

Definition duplicate_entry (id : Z) : error :=
  errorString ("Error 1062 (23000): Duplicate entry '" +:+ strconv.Itoa id
               +:+ "' for key 'individuos.PRIMARY'").

Definition truncated_value (s : string) : error :=
  errorString ("Error 1292 (22007): Truncated incorrect DOUBLE value: '"
               +:+ s +:+ "'").

Definition unknown_statement : error :=
  errorString "Error 1064 (42000): You have an error in your SQL syntax".

(** The [sql.Result] of a statement that ran: the driver answers both
    of its methods without error. *)
Definition executed (rows : Z) (last : Z) : sql.Result :=
  {| sql.LastInsertId := Ok last; sql.RowsAffected := Ok rows |}.

Definition by_id (a b : Z * string) : Prop := a.1 ≤ b.1.

Global Instance by_id_dec : RelDecision by_id.
Proof. intros a b. unfold by_id. apply _. Defined.

(** [SELECT id, nome FROM individuos].  The statement has no [ORDER BY],
    so SQL leaves the order of the rows to the server.  The rows come here
    in the order of the primary key, in which InnoDB scans the table; what
    is proved of the list uses only which rows it holds, never their
    order. *)
Definition select_all (db : Server) : list (Z * string) :=
  merge_sort by_id (map_to_list (individuos db)).

(** [SELECT id, nome FROM individuos WHERE id = ?] *)
Definition select_by_id (db : Server) (id : string) : sql.scanned :=
  let v := (number_of_text id).1 in
  match individuos db !! v with
  | Some nome => Ok (v, nome)
  | None => Err ErrNoRows
  end.

(** [INSERT INTO individuos (nome) VALUES (?)] *)
Definition insert (db : Server) (nome : string)
  : result sql.Result * Server :=
  if 255 <? CHAR_LENGTH nome then (Err data_too_long, db)
  else
    let id := AUTO_INCREMENT db in
    match individuos db !! id with
    | Some _ => (Err (duplicate_entry id), db)
    | None =>
        (Ok (executed 1 id),
         {| individuos := <[id := nome]> (individuos db);
            AUTO_INCREMENT := Z.min (id + 1) maxINT;
            alive := alive db |})
    end.

(** [DELETE FROM individuos WHERE id = ?] *)
Definition delete_by_id (db : Server) (id : string)
  : result sql.Result * Server :=
  let '(v, numeric) := number_of_text id in
  if negb numeric then (Err (truncated_value id), db)
  else
    match individuos db !! v with
    | Some _ =>
        (Ok (executed 1 0),
         {| individuos := delete v (individuos db);
            AUTO_INCREMENT := AUTO_INCREMENT db;
            alive := alive db |})
    | None => (Ok (executed 0 0), db)
    end.

(** [UPDATE individuos SET nome = ? WHERE id = ?] *)
Definition update (db : Server) (nome : string) (id : Z)
  : result sql.Result * Server :=
  match individuos db !! id with
  | None => (Ok (executed 0 0), db)
  | Some old =>
      if 255 <? CHAR_LENGTH nome then (Err data_too_long, db)
      else if decide (old = nome) then (Ok (executed 0 0), db)
      else
        (Ok (executed 1 0),
         {| individuos := <[id := nome]> (individuos db);
            AUTO_INCREMENT := AUTO_INCREMENT db;
            alive := alive db |})
  end.

Definition Query (db : Server) (q : string) (args : list sql.arg)
  : result (list sql.scanned) * Server :=
  if negb (alive db) then (Err bad_connection, db)
  else
    match args with
    | [] =>
        if decide (q = "SELECT id, nome FROM individuos")
        then (Ok (Ok <$> select_all db), db)
        else (Err unknown_statement, db)
    | _ => (Err unknown_statement, db)
    end.

Definition QueryRow_Scan (db : Server) (q : string) (args : list sql.arg)
  : sql.scanned * Server :=
  if negb (alive db) then (Err bad_connection, db)
  else
    match args with
    | [sql.Text id] =>
        if decide (q = "SELECT id, nome FROM individuos WHERE id = ?")
        then (select_by_id db id, db)
        else (Err unknown_statement, db)
    | _ => (Err unknown_statement, db)
    end.

Definition Exec (db : Server) (q : string) (args : list sql.arg)
  : result sql.Result * Server :=
  if negb (alive db) then (Err bad_connection, db)
  else
    match args with
    | [sql.Text a] =>
        if decide (q = "INSERT INTO individuos (nome) VALUES (?)")
        then insert db a
        else if decide (q = "DELETE FROM individuos WHERE id = ?")
        then delete_by_id db a
        else (Err unknown_statement, db)
    | [sql.Text nome; sql.Int id] =>
        if decide (q = "UPDATE individuos SET nome = ? WHERE id = ?")
        then update db nome id
        else (Err unknown_statement, db)
    | _ => (Err unknown_statement, db)
    end.

Global Instance conn : sql.Conn Server :=
  {| sql.Query := Query; sql.QueryRow_Scan := QueryRow_Scan;
     sql.Exec := Exec |}.

End mysql.

(** ** package encoding/json: a decoder

    An instance of [json.Decoder] for the worked examples: it reads the
    first JSON value of the body (RFC 8259 syntax, as Go's scanner accepts
    it) and stores it into the struct the way [Unmarshal] does for
    [Pessoa].  A syntax error names the offending byte and what the
    scanner was reading, in the words of [scanner.go]. *)

Module decoder.

Local Unset Elimination Schemes.
Inductive value : Type :=
  | Null
  | Bool (b : bool)
  | Number (lit : string)
  | Str (s : string)
  | Array (elems : list value)
  | Object (members : list (string * value)).
Local Set Elimination Schemes.

Definition errEOF : error := errorString "EOF".
Definition errUnexpectedEOF : error := errorString "unexpected EOF".
(** [strconv.Quote(string(c))] without its quotes, for a byte [c] other
    than the double quote: the one rune U+0000 to U+00FF, as it is when
    [IsPrint] holds, escaped otherwise. *)
Definition quoted (b : Z) : string :=
  if b =? 92 then backslash +:+ backslash
  else if (32 <=? b) && (b <=? 126) then chr b
  else if (161 <=? b) && (b <=? 255) && negb (b =? 173)
  then utf8.EncodeRune b
  else if b =? 7 then "\a"
  else if b =? 8 then "\b"
  else if b =? 12 then "\f"
  else if b =? 10 then "\n"
  else if b =? 13 then "\r"
  else if b =? 9 then "\t"
  else if b =? 11 then "\v"
  else if (b <? 32) || (b =? 127)
  then "\x" +:+ json.hex (Z.shiftr b 4) +:+ json.hex (Z.land b 15)
  else "\u00" +:+ json.hex (Z.shiftr b 4) +:+ json.hex (Z.land b 15).

Definition quoteChar (c : ascii) : string :=
  let b := byte_val c in
  if b =? 39 then "'" +:+ backslash +:+ "''"
  else if b =? 34 then "'" +:+ dquote +:+ "'"
  else "'" +:+ quoted b +:+ "'".

(** [scanner.error]: the byte and what the scanner was reading. *)
Definition SyntaxError (c : ascii) (context : string) : error :=
  errorString ("invalid character " +:+ quoteChar c +:+ " " +:+ context).

Definition inHex : string := "in \u hexadecimal character escape".
Definition errMaxDepth : error := errorString "exceeded max depth".

Definition maxNestingDepth : Z := 10000.

Definition isc (c : ascii) (k : string) : bool :=
  bool_decide (String c "" = k).

Definition isSpace (c : ascii) : bool :=
  let b := byte_val c in
  (b =? 32) || (b =? 9) || (b =? 13) || (b =? 10).

Fixpoint skipSpace (s : string) : string :=
  match s with
  | EmptyString => ""
  | String c t => if isSpace c then skipSpace t else s
  end.

Definition hexval (c : ascii) : option Z :=
  let b := byte_val c in
  if (48 <=? b) && (b <=? 57) then Some (b - 48)
  else if (97 <=? b) && (b <=? 102) then Some (b - 87)
  else if (65 <=? b) && (b <=? 70) then Some (b - 55)
  else None.

(** The four hexadecimal digits of a [\u] escape. *)
Definition hex4 (s : string) : result (Z * string) :=
  match s with
  | String a (String b (String c (String d t))) =>
      match hexval a, hexval b, hexval c, hexval d with
      | Some x, Some y, Some z, Some w =>
          Ok (((x * 16 + y) * 16 + z) * 16 + w, t)
      | None, _, _, _ => Err (SyntaxError a inHex)
      | _, None, _, _ => Err (SyntaxError b inHex)
      | _, _, None, _ => Err (SyntaxError c inHex)
      | _, _, _, None => Err (SyntaxError d inHex)
      end
  | String a (String b (String c EmptyString)) =>
      match hexval a, hexval b, hexval c with
      | Some _, Some _, Some _ => Err errUnexpectedEOF
      | None, _, _ => Err (SyntaxError a inHex)
      | _, None, _ => Err (SyntaxError b inHex)
      | _, _, None => Err (SyntaxError c inHex)
      end
  | String a (String b EmptyString) =>
      match hexval a, hexval b with
      | Some _, Some _ => Err errUnexpectedEOF
      | None, _ => Err (SyntaxError a inHex)
      | _, None => Err (SyntaxError b inHex)
      end
  | String a EmptyString =>
      match hexval a with
      | Some _ => Err errUnexpectedEOF
      | None => Err (SyntaxError a inHex)
      end
  | EmptyString => Err errUnexpectedEOF
  end.

(** [getu4] on the text after a first escape: a second [\uXXXX], if
    there is one. *)
Definition second_u4 (s : string) : option (Z * string) :=
  match s with
  | String b (String u t) =>
      if isc b "\" && isc u "u" then
        match hex4 t with
        | Ok (r, t') => Some (r, t')
        | Err _ => None
        end
      else None
  | _ => None
  end.

Definition isSurrogate (r : Z) : bool := (55296 <=? r) && (r <? 57344).

(** [utf16.DecodeRune] *)
Definition utf16_DecodeRune (r1 r2 : Z) : Z :=
  if (55296 <=? r1) && (r1 <? 56320) && (56320 <=? r2) && (r2 <? 57344)
  then Z.lor (Z.shiftl (r1 - 55296) 10) (r2 - 56320) + 65536
  else utf8.RuneError.

Fixpoint drop_bytes (n : nat) (s : string) : string :=
  match n, s with
  | S k, String _ t => drop_bytes k t
  | _, _ => s
  end.

(** A string literal after its opening quote: the text it denotes
    (escapes resolved, malformed UTF-8 replaced, as [unquote] does) and
    what follows the closing quote. *)
Fixpoint string_body (fuel : nat) (s : string) : result (string * string) :=
  match fuel with
  | O => Err errUnexpectedEOF
  | S fuel =>
      match s with
      | EmptyString => Err errUnexpectedEOF
      | String c t =>
          let b := byte_val c in
          if b =? 34 then Ok ("", t)
          else if b <? 32 then Err (SyntaxError c "in string literal")
          else if b =? 92 then
            match t with
            | EmptyString => Err errUnexpectedEOF
            | String e t' =>
                let simple (x : Z) :=
                  '(r, rest) ← string_body fuel t'; Ok (chr x +:+ r, rest) in
                if (byte_val e =? 34) || isc e "\" || isc e "/"
                then simple (byte_val e)
                else if isc e "b" then simple 8
                else if isc e "f" then simple 12
                else if isc e "n" then simple 10
                else if isc e "r" then simple 13
                else if isc e "t" then simple 9
                else if isc e "u" then
                  '(rr, t2) ← hex4 t';
                  let '(rune, t3) :=
                    if isSurrogate rr then
                      match second_u4 t2 with
                      | Some (rr1, t3) =>
                          if utf16_DecodeRune rr rr1 =? utf8.RuneError
                          then (utf8.RuneError, t2)
                          else (utf16_DecodeRune rr rr1, t3)
                      | None => (utf8.RuneError, t2)
                      end
                    else (rr, t2) in
                  '(r, rest) ← string_body fuel t3;
                  Ok (utf8.EncodeRune rune +:+ r, rest)
                else Err (SyntaxError e "in string escape code")
            end
          else if b <? 128 then
            '(r, rest) ← string_body fuel t; Ok (String c r, rest)
          else
            let '(rune, size) := utf8.DecodeRuneInString s in
            '(r, rest) ← string_body fuel (drop_bytes size s);
            Ok (utf8.EncodeRune rune +:+ r, rest)
      end
  end.

Definition isDigit (c : ascii) : bool :=
  (48 <=? byte_val c) && (byte_val c <=? 57).

(** The digits at the head of a text, and the rest. *)
Fixpoint digits (s : string) : string * string :=
  match s with
  | EmptyString => ("", "")
  | String c t =>
      if isDigit c then let '(d, r) := digits t in (String c d, r)
      else ("", s)
  end.

(** At least one digit. *)
Definition digits1 (context : string) (s : string)
  : result (string * string) :=
  match s with
  | EmptyString => Err errUnexpectedEOF
  | String c _ =>
      if isDigit c then Ok (digits s) else Err (SyntaxError c context)
  end.

(** A number literal: an optional minus; a zero, or digits that do not
    start with zero; an optional fraction (a point and digits); an
    optional exponent ([e] or [E], an optional sign, digits). *)
Definition number (s : string) : result (string * string) :=
  let '(sign, s) :=
    match s with
    | String c t => if isc c "-" then ("-", t) else ("", s)
    | EmptyString => ("", s)
    end in
  '(int, s) ←
    match s with
    | EmptyString => Err errUnexpectedEOF
    | String c t =>
        if isc c "0" then Ok ("0", t)
        else if isDigit c then Ok (digits s)
        else Err (SyntaxError c "in numeric literal")
    end;
  '(frac, s) ←
    match s with
    | String c t =>
        if isc c "." then
          '(d, r) ← digits1 "after decimal point in numeric literal" t;
          Ok ("." +:+ d, r)
        else Ok ("", s)
    | EmptyString => Ok ("", s)
    end;
  '(exp, s) ←
    match s with
    | String c t =>
        if isc c "e" || isc c "E" then
          let '(esign, t) :=
            match t with
            | String c' t' =>
                if isc c' "+" || isc c' "-" then (String c' "", t')
                else ("", t)
            | EmptyString => ("", t)
            end in
          '(d, r) ← digits1 "in exponent of numeric literal" t;
          Ok (String c "" +:+ esign +:+ d, r)
        else Ok ("", s)
    | EmptyString => Ok ("", s)
    end;
  Ok (sign +:+ int +:+ frac +:+ exp, s).

(** The rest of a literal name ([rue] after [t], ...). *)
Fixpoint literal (name rest : string) (s : string) : result string :=
  match rest with
  | EmptyString => Ok s
  | String k rest' =>
      match s with
      | EmptyString => Err errUnexpectedEOF
      | String c t =>
          if decide (c = k) then literal name rest' t
          else Err (SyntaxError c ("in literal " +:+ name +:+ " (expecting '"
                                   +:+ String k "" +:+ "')"))
      end
  end.

(** The next byte that is not white space. *)
Definition next (s : string) : result (ascii * string) :=
  match skipSpace s with
  | EmptyString => Err errUnexpectedEOF
  | String c t => Ok (c, t)
  end.

(** One JSON value at the head of the text.  Every nested call takes
    one unit of [fuel]; the text length bounds what a value can need. *)
Fixpoint parse_value (fuel : nat) (depth : Z) (s : string)
  : result (value * string) :=
  match fuel with
  | O => Err errUnexpectedEOF
  | S fuel =>
      '(c, t) ← next s;
      if isc c "{" then
        if maxNestingDepth <? depth + 1 then Err errMaxDepth
        else
          '(c1, t1) ← next t;
          if isc c1 "}" then Ok (Object [], t1)
          else parse_members fuel (depth + 1) (String c1 t1) []
      else if isc c "[" then
        if maxNestingDepth <? depth + 1 then Err errMaxDepth
        else
          '(c1, t1) ← next t;
          if isc c1 "]" then Ok (Array [], t1)
          else parse_elems fuel (depth + 1) (String c1 t1) []
      else if byte_val c =? 34 then
        '(str, r) ← string_body (String.length t) t; Ok (Str str, r)
      else if isc c "-" || isDigit c then
        '(lit, r) ← number (String c t); Ok (Number lit, r)
      else if isc c "t" then r ← literal "true" "rue" t; Ok (Bool true, r)
      else if isc c "f" then r ← literal "false" "alse" t; Ok (Bool false, r)
      else if isc c "n" then r ← literal "null" "ull" t; Ok (Null, r)
      else Err (SyntaxError c "looking for beginning of value")
  end
with parse_members (fuel : nat) (depth : Z) (s : string)
       (acc : list (string * value)) : result (value * string) :=
  match fuel with
  | O => Err errUnexpectedEOF
  | S fuel =>
      '(q, t) ← next s;
      if negb (byte_val q =? 34)
      then Err (SyntaxError q "looking for beginning of object key string")
      else
        '(key, t) ← string_body (String.length t) t;
        '(colon, t) ← next t;
        if negb (isc colon ":")
        then Err (SyntaxError colon "after object key")
        else
          '(v, t) ← parse_value fuel depth t;
          '(sep, t) ← next t;
          if isc sep "," then parse_members fuel depth t (acc ++ [(key, v)])
          else if isc sep "}" then Ok (Object (acc ++ [(key, v)]), t)
          else Err (SyntaxError sep "after object key:value pair")
  end
with parse_elems (fuel : nat) (depth : Z) (s : string) (acc : list value)
       : result (value * string) :=
  match fuel with
  | O => Err errUnexpectedEOF
  | S fuel =>
      '(v, t) ← parse_value fuel depth s;
      '(sep, t) ← next t;
      if isc sep "," then parse_elems fuel depth t (acc ++ [v])
      else if isc sep "]" then Ok (Array (acc ++ [v]), t)
      else Err (SyntaxError sep "after array element")
  end.

(** ASCII case folding of an object key; the field names [id] and [nome]
    have no other case variants. *)
Definition lower (c : ascii) : ascii :=
  let b := byte_val c in
  if (65 <=? b) && (b <=? 90) then byte_of (b + 32) else c.

Fixpoint foldName (s : string) : string :=
  match s with
  | EmptyString => ""
  | String c t => String (lower c) (foldName t)
  end.

Definition UnmarshalTypeError (what field type : string) : error :=
  errorString ("json: cannot unmarshal " +:+ what
               +:+ " into Go struct field Pessoa." +:+ field
               +:+ " of type " +:+ type).

Definition kind (v : value) : string :=
  match v with
  | Null => "null"
  | Bool _ => "bool"
  | Number _ => "number"
  | Str _ => "string"
  | Array _ => "array"
  | Object _ => "object"
  end.

(** Storing a value into the field [ID int]. *)
Definition store_ID (v : value) (p : Pessoa) : result Pessoa :=
  match v with
  | Null => Ok p
  | Number lit =>
      match strconv.Atoi lit with
      | Some n => Ok {| ID := n; Nome := Nome p |}
      | None => Err (UnmarshalTypeError ("number " +:+ lit) "id" "int")
      end
  | _ => Err (UnmarshalTypeError (kind v) "id" "int")
  end.

(** Storing a value into the field [Nome string]. *)
Definition store_Nome (v : value) (p : Pessoa) : result Pessoa :=
  match v with
  | Null => Ok p
  | Str s => Ok {| ID := ID p; Nome := s |}
  | _ => Err (UnmarshalTypeError (kind v) "nome" "string")
  end.

(** The members in order; a key that names no field is skipped, a value
    of the wrong type leaves its field alone, and the first such error
    is the one reported at the end. *)
Fixpoint store_members (ms : list (string * value)) (p : Pessoa)
    (saved : option error) : Pessoa * option error :=
  match ms with
  | [] => (p, saved)
  | (key, v) :: ms' =>
      let stored :=
        if decide (foldName key = "id") then store_ID v p
        else if decide (foldName key = "nome") then store_Nome v p
        else Ok p in
      match stored with
      | Ok p' => store_members ms' p' saved
      | Err e =>
          store_members ms' p
            (match saved with Some _ => saved | None => Some e end)
      end
  end.

Definition unmarshal (v : value) (p : Pessoa) : result Pessoa :=
  match v with
  | Null => Ok p
  | Object ms =>
      match store_members ms p None with
      | (p', None) => Ok p'
      | (_, Some e) => Err e
      end
  | _ =>
      Err (errorString ("json: cannot unmarshal " +:+ kind v
                        +:+ " into Go value of type main.Pessoa"))
  end.

(** [json.NewDecoder(body).Decode(&p)]: an empty body is [io.EOF];
    whatever follows the first value is left unread. *)
Definition Decode (body : string) (p : Pessoa) : result Pessoa :=
  match skipSpace body with
  | EmptyString => Err errEOF
  | _ =>
      '(v, _) ← parse_value (S (String.length body)) 0 body;
      unmarshal v p
  end.

Global Instance go_decoder : json.Decoder := Decode.

End decoder.

(** ** The invariant of the table and the requests of the worked examples *)

(** The ids of the table and its counter stay within the INT column. *)
Definition wf (db : mysql.Server) : Prop :=
  1 ≤ mysql.AUTO_INCREMENT db ≤ mysql.maxINT
  ∧ ∀ id nome, mysql.individuos db !! id = Some nome →
               1 ≤ id ≤ mysql.maxINT.

(** The body [{"nome":"<nome>"}], for a name that needs no escaping. *)
Definition nome_body (nome : string) : string :=
  "{" +:+ dquote +:+ "nome" +:+ dquote +:+ ":" +:+ dquote +:+ nome
    +:+ dquote +:+ "}".

(** [POST /pessoas] *)
Definition POST (contentType body : string) : http.Request :=
  {| http.ReqHeader := {[ "Content-Type" := [contentType] ]};
     http.ReqBody := body; http.Vars := ∅ |}.

(** [PUT /pessoas/{id}] *)
Definition PUT (id contentType body : string) : http.Request :=
  {| http.ReqHeader := {[ "Content-Type" := [contentType] ]};
     http.ReqBody := body; http.Vars := {[ "id" := id ]} |}.

(** [GET /pessoas/{id}] and [DELETE /pessoas/{id}]: no body, no content
    type. *)
Definition at_id (id : string) : http.Request :=
  {| http.ReqHeader := ∅; http.ReqBody := "";
     http.Vars := {[ "id" := id ]} |}.

(** A table with the single row [(1, "Ana")]. *)
Definition one_Ana : mysql.Server :=
  {| mysql.individuos := {[ 1 := "Ana" ]}; mysql.AUTO_INCREMENT := 2;
     mysql.alive := true |}.

(** A server that cannot be reached. *)
Definition unreachable : mysql.Server :=
  {| mysql.individuos := ∅; mysql.AUTO_INCREMENT := 1;
     mysql.alive := false |}.

(** The value of a digit sequence read after [acc]. *)
Fixpoint uint_val (acc : Z) (d : Decimal.uint) : Z :=
  match d with
  | Decimal.Nil => acc
  | Decimal.D0 d => uint_val (10 * acc + 0) d
  | Decimal.D1 d => uint_val (10 * acc + 1) d
  | Decimal.D2 d => uint_val (10 * acc + 2) d
  | Decimal.D3 d => uint_val (10 * acc + 3) d
  | Decimal.D4 d => uint_val (10 * acc + 4) d
  | Decimal.D5 d => uint_val (10 * acc + 5) d
  | Decimal.D6 d => uint_val (10 * acc + 6) d
  | Decimal.D7 d => uint_val (10 * acc + 7) d
  | Decimal.D8 d => uint_val (10 * acc + 8) d
  | Decimal.D9 d => uint_val (10 * acc + 9) d
  end.

Definition has_digit (d : Decimal.uint) : bool :=
  match d with Decimal.Nil => false | _ => true end.

(** ** The welcome handler *)

(** [bemVindo]: [fmt.Fprint(w, ...)] is one [Write] of the greeting.  The
    handler does not use the database. *)
Definition bemVindo (w : http.ResponseWriter) (r : http.Request)
  : http.ResponseWriter :=
  http.Write w "Bem-vindo ao nosso serviço!".

(** ** package path *)

Module gopath.

Definition is_slash (c : ascii) : bool := bool_decide (byte_val c = 47).

(** The elements of a path: the texts between its slashes. *)
Fixpoint elements (s : string) : list string :=
  match s with
  | EmptyString => [""]
  | String c t =>
      if is_slash c then "" :: elements t
      else
        match elements t with
        | e :: es => String c e :: es
        | [] => [String c ""]
        end
  end.

Fixpoint join (l : list string) : string :=
  match l with
  | [] => ""
  | [e] => e
  | e :: l' => e +:+ "/" +:+ join l'
  end.

(** One element in the loop of [Clean].  [out] holds the elements written
    so far, last first; [dotdot] counts the leading [..] elements that
    cannot be taken back. *)
Definition clean_step (rooted : bool) (st : list string * nat) (e : string)
  : list string * nat :=
  let '(out, dotdot) := st in
  if decide (e = "" ∨ e = ".") then st
  else if decide (e = "..") then
    if (dotdot <? length out)%nat then (tail out, dotdot)
    else if rooted then st
    else (".." :: out, S dotdot)
  else (e :: out, dotdot).

(** [path.Clean] *)
Definition Clean (path : string) : string :=
  match path with
  | EmptyString => "."
  | String c _ =>
      let rooted := is_slash c in
      let out := (foldl (clean_step rooted) ([], O) (elements path)).1 in
      let body := join (rev out) in
      if rooted then "/" +:+ body
      else if decide (body = "") then "." else body
  end.

End gopath.

(** ** package github.com/gorilla/mux

    The router as [main] uses it: routes made by [HandleFunc], some
    restricted by [Methods], tried in the order of their registration. *)

Module mux.

Fixpoint last_byte (s : string) : option ascii :=
  match s with
  | EmptyString => None
  | String c EmptyString => Some c
  | String _ t => last_byte t
  end.

(** [cleanPath]: [path.Clean] on the rooted path, with the trailing slash
    put back. *)
Definition cleanPath (p : string) : string :=
  match p with
  | EmptyString => "/"
  | String c _ =>
      let p := if gopath.is_slash c then p else "/" +:+ p in
      let np := gopath.Clean p in
      match last_byte p with
      | Some l =>
          if gopath.is_slash l && negb (bool_decide (np = "/"))
          then np +:+ "/" else np
      | None => np
      end
  end.

(** A path template after [newRouteRegexp]: literal text and variables.
    A variable written [{name}] has the pattern [[^/]+]; the template as
    a whole is anchored at both ends ([^ ... $]). *)
Inductive piece : Type :=
  | Lit (text : string)
  | Var (name : string).

Fixpoint strip_prefix (p s : string) : option string :=
  match p, s with
  | EmptyString, _ => Some s
  | String a p', String b s' =>
      if decide (a = b) then strip_prefix p' s' else None
  | String _ _, EmptyString => None
  end.

(** The ways [[^/]+] can match at the head of a text, the longest first:
    the value taken and what is left. *)
Fixpoint var_matches (s : string) : list (string * string) :=
  match s with
  | EmptyString => []
  | String c t =>
      if gopath.is_slash c then []
      else ((λ m : string * string, (String c m.1, m.2)) <$> var_matches t)
             ++ [(String c "", t)]
  end.

Fixpoint first_match {A B : Type} (f : A → option B) (l : list A)
  : option B :=
  match l with
  | [] => None
  | x :: l' =>
      match f x with
      | Some y => Some y
      | None => first_match f l'
      end
  end.

(** The match of the anchored template against a path: the values of its
    variables, or no match. *)
Fixpoint match_pieces (ps : list piece) (s : string)
  : option (list (string * string)) :=
  match ps with
  | [] => if decide (s = "") then Some [] else None
  | Lit text :: ps' =>
      match strip_prefix text s with
      | Some rest => match_pieces ps' rest
      | None => None
      end
  | Var name :: ps' =>
      first_match
        (λ m : string * string,
           match match_pieces ps' m.2 with
           | Some vars => Some ((name, m.1) :: vars)
           | None => None
           end)
        (var_matches s)
  end.

(** What the router reads of a request on arrival: the method, the path
    of the URL (decoded), the header and the body.  [WithPath p] is the
    text of the request's URL with its path replaced by [p], the
    [url.String()] of the redirect. *)
Record Incoming : Type := mkIncoming {
  Method : string;
  Path : string;
  WithPath : string → string;
  Header : http.Header;
  Body : string
}.

Section Router.

Context {DB : Type}.

(** An [http.HandlerFunc] with the database handle it works on. *)
Definition Handler : Type :=
  http.ResponseWriter → http.Request → DB → http.ResponseWriter * DB.

(** A route: its path template, the methods of [Methods(...)] when the
    route has such a matcher, and its handler. *)
Record Route : Type := mkRoute {
  template : list piece;
  methods : option (list string);
  handler : Handler
}.

(** [r.HandleFunc(path, f)] *)
Definition HandleFunc (tpl : list piece) (f : Handler) : Route :=
  {| template := tpl; methods := None; handler := f |}.

(** [route.Methods(m...)] *)
Definition Methods (rt : Route) (ms : list string) : Route :=
  {| template := template rt; methods := Some ms; handler := handler rt |}.

(** The method matcher: the request method is one of the listed ones. *)
Definition method_matches (rt : Route) (m : string) : bool :=
  match methods rt with
  | None => true
  | Some ms => bool_decide (m ∈ ms)
  end.

Inductive RouteMatch : Type :=
  | Matched (h : Handler) (vars : gmap string string)
  | ErrMethodMismatch
  | ErrNotFound.

(** [Router.Match]: the first route whose path and method both match;
    [mismatch] records that an earlier route matched the path but not the
    method. *)
Fixpoint Match (routes : list Route) (req : Incoming) (mismatch : bool)
  : RouteMatch :=
  match routes with
  | [] => if mismatch then ErrMethodMismatch else ErrNotFound
  | rt :: routes' =>
      match match_pieces (template rt) (Path req) with
      | None => Match routes' req mismatch
      | Some vars =>
          if method_matches rt (Method req)
          then Matched (handler rt) (list_to_map vars)
          else Match routes' req true
      end
  end.

Definition StatusMovedPermanently : Z := 301.
Definition StatusMethodNotAllowed : Z := 405.

(** [Router.ServeHTTP] *)
Definition ServeHTTP (routes : list Route) (w : http.ResponseWriter)
    (req : Incoming) (db : DB) : http.ResponseWriter * DB :=
  let p := cleanPath (Path req) in
  if decide (p ≠ Path req) then
    let w := http.Header_Set w "Location" (WithPath req p) in
    (http.WriteHeader w StatusMovedPermanently, db)
  else
    match Match routes req false with
    | Matched h vars =>
        h w {| http.ReqHeader := Header req; http.ReqBody := Body req;
               http.Vars := vars |} db
    | ErrMethodMismatch => (http.WriteHeader w StatusMethodNotAllowed, db)
    | ErrNotFound =>
        (http.Error w "404 page not found" http.StatusNotFound, db)
    end.

End Router.

End mux.

(** ** The router of [main]

    The six routes in the order [main] registers them.  [/pessoas/{id}]
    is the literal [/pessoas/] followed by the variable [id]. *)

Section Main.

Context {DB : Type} {conn : sql.Conn DB} {dec : json.Decoder}.

Definition routes : list (mux.Route (DB := DB)) :=
  [ mux.HandleFunc [mux.Lit "/"] (λ w r db, (bemVindo w r, db));
    mux.Methods (mux.HandleFunc [mux.Lit "/pessoas"] listarPessoas) ["GET"];
    mux.Methods (mux.HandleFunc [mux.Lit "/pessoas"] adicionarPessoa)
      ["POST"];
    mux.Methods
      (mux.HandleFunc [mux.Lit "/pessoas/"; mux.Var "id"] obterPessoa)
      ["GET"];
    mux.Methods
      (mux.HandleFunc [mux.Lit "/pessoas/"; mux.Var "id"] removerPessoa)
      ["DELETE"];
    mux.Methods
      (mux.HandleFunc [mux.Lit "/pessoas/"; mux.Var "id"] modificarPessoa)
      ["PUT"] ].

(** The handler [main] passes to [http.ListenAndServe]. *)
Definition serve (w : http.ResponseWriter) (req : mux.Incoming) (db : DB)
  : http.ResponseWriter * DB :=
  mux.ServeHTTP routes w req db.

End Main.

(** ** A driver that answers from a script

    A second implementation of [sql.Conn], for the examples that need a
    failure the table in memory never produces: every call returns the
    outcome the script holds for it. *)

Module canned.

Record Script : Type := mkScript {
  on_Query : result (list sql.scanned);
  on_QueryRow : sql.scanned;
  on_Exec : result sql.Result
}.

Global Instance conn : sql.Conn Script :=
  {| sql.Query := λ s _ _, (on_Query s, s);
     sql.QueryRow_Scan := λ s _ _, (on_QueryRow s, s);
     sql.Exec := λ s _ _, (on_Exec s, s) |}.

End canned.

(** An incoming request without query string. *)
Definition incoming (method path contentType body : string) : mux.Incoming :=
  {| mux.Method := method; mux.Path := path; mux.WithPath := λ p, p;
     mux.Header := {[ "Content-Type" := [contentType] ]};
     mux.Body := body |}.

(** The Person a scanned row becomes in [listarPessoas] and
    [obterPessoa]. *)
Definition pessoa_of (row : Z * string) : Pessoa :=
  {| ID := row.1; Nome := row.2 |}.

(** How a response is labelled: a 200 is sent as [application/json]; an
    error (400 and above) is sent as plain text with sniffing turned off,
    and its body is one line; a 204 has neither header nor body. *)
Definition labelled (w : http.ResponseWriter) : Prop :=
  (http.Status w = 200 →
   http.SentHeader w !! "Content-Type" = Some ["application/json"])
  ∧ (400 ≤ http.Status w →
     http.SentHeader w !! "Content-Type"
     = Some ["text/plain; charset=utf-8"]
     ∧ http.SentHeader w !! "X-Content-Type-Options" = Some ["nosniff"]
     ∧ ∃ msg : string, http.Body w = msg +:+ newline)
  ∧ (http.Status w = 204 → http.SentHeader w = ∅ ∧ http.Body w = "").

(** A text without a slash: what a path variable can take. *)
Fixpoint no_slash (s : string) : bool :=
  match s with
  | EmptyString => true
  | String c t => negb (gopath.is_slash c) && no_slash t
  end.

(** A text with two slashes in a row. *)
Fixpoint double_slash (s : string) : bool :=
  match s with
  | String a (String b _ as t) =>
      (gopath.is_slash a && gopath.is_slash b) || double_slash t
  | _ => false
  end.

(** The request a handler gets from the router. *)
Definition routed (req : mux.Incoming) (vars : gmap string string)
  : http.Request :=
  {| http.ReqHeader := mux.Header req; http.ReqBody := mux.Body req;
     http.Vars := vars |}.

Definition starts_slash (s : string) : bool :=
  match s with
  | String c _ => gopath.is_slash c
  | EmptyString => false
  end.

Definition ends_slash (s : string) : bool :=
  match mux.last_byte s with
  | Some c => gopath.is_slash c
  | None => false
  end.

(** A name: an element that [Clean] keeps. *)
Definition is_name (e : string) : Prop := e ≠ "" ∧ no_slash e = true.

(** A text of ASCII bytes only. *)
Fixpoint ascii_text (s : string) : bool :=
  match s with
  | EmptyString => true
  | String c t => (byte_val c <? 128) && ascii_text t
  end.

(** What the encoder writes for one ASCII byte of a string. *)
Definition enc_byte (c : ascii) : string :=
  if json.htmlSafeSet (byte_val c) then String c ""
  else json.escape (byte_val c).

(** * Properties *)

(** ** Decimal text

    [Itoa] writes what the table reads back: the text of an integer, read
    as a number, is that integer. *)

Section DecimalText.

Lemma digits_prefix_uint (d : Decimal.uint) (acc : Z) (seen : bool) :
  mysql.digits_prefix acc seen (NilEmpty.string_of_uint d)
  = (uint_val acc d, seen || has_digit d, "").
Proof.
  revert acc seen.
  induction d; intros acc seen;
    cbn [NilEmpty.string_of_uint has_digit];
    [ cbn; by rewrite orb_false_r
    | cbn [mysql.digits_prefix uint_val]; change (strconv.digit_of _)
        with (Some 0) + change (strconv.digit_of _) with (Some 1)
        + change (strconv.digit_of _) with (Some 2)
        + change (strconv.digit_of _) with (Some 3)
        + change (strconv.digit_of _) with (Some 4)
        + change (strconv.digit_of _) with (Some 5)
        + change (strconv.digit_of _) with (Some 6)
        + change (strconv.digit_of _) with (Some 7)
        + change (strconv.digit_of _) with (Some 8)
        + change (strconv.digit_of _) with (Some 9);
      cbv iota; rewrite IHd; by rewrite orb_true_r .. ].
Qed.

Lemma digits_val_uint (d : Decimal.uint) (acc : Z) :
  strconv.digits_val acc (NilEmpty.string_of_uint d) = Some (uint_val acc d).
Proof.
  revert acc.
  induction d; intros acc; cbn [NilEmpty.string_of_uint];
    [ done
    | cbn [strconv.digits_val uint_val]; change (strconv.digit_of _)
        with (Some 0) + change (strconv.digit_of _) with (Some 1)
        + change (strconv.digit_of _) with (Some 2)
        + change (strconv.digit_of _) with (Some 3)
        + change (strconv.digit_of _) with (Some 4)
        + change (strconv.digit_of _) with (Some 5)
        + change (strconv.digit_of _) with (Some 6)
        + change (strconv.digit_of _) with (Some 7)
        + change (strconv.digit_of _) with (Some 8)
        + change (strconv.digit_of _) with (Some 9);
      cbv iota; by rewrite IHd .. ].
Qed.

Lemma uint_val_pos (d : Decimal.uint) (acc : positive) :
  uint_val (Z.pos acc) d = Z.pos (Pos.of_uint_acc d acc).
Proof.
  revert acc. induction d; intros acc; cbn [uint_val Pos.of_uint_acc];
    [ done | .. ];
    match goal with
    | |- uint_val ?z _ = Z.pos (Pos.of_uint_acc _ ?q) =>
        replace z with (Z.pos q) by lia
    end; apply IHd.
Qed.

Lemma uint_val_zero (d : Decimal.uint) :
  uint_val 0 d = Z.of_N (Pos.of_uint d).
Proof.
  induction d; cbn [uint_val Pos.of_uint]; [ done | apply IHd | .. ];
    match goal with
    | |- uint_val ?z _ = _ =>
        change z with (Z.pos (Z.to_pos z)); rewrite uint_val_pos
    end; reflexivity.
Qed.

Lemma uint_val_to_uint (p : positive) :
  uint_val 0 (Pos.to_uint p) = Z.pos p.
Proof. by rewrite uint_val_zero, DecimalPos.Unsigned.of_to. Qed.

Lemma digit_of_Some (c : ascii) (d : Z) :
  strconv.digit_of c = Some d → 48 ≤ byte_val c ≤ 57.
Proof.
  unfold strconv.digit_of.
  destruct (48 <=? byte_val c) eqn:Hlo; destruct (byte_val c <=? 57) eqn:Hhi;
    cbn; try discriminate.
  intros _. lia.
Qed.

(** A text that starts with a digit has neither blanks nor a sign to
    skip. *)
Lemma number_of_text_digit (c : ascii) (t : string) (d : Z) :
  strconv.digit_of c = Some d →
  mysql.number_of_text (String c t)
  = (let '(v, seen, rest) := mysql.digits_prefix 0 false (String c t) in
     (v, seen && bool_decide (mysql.skip_blanks rest = ""))).
Proof.
  intros Hd. apply digit_of_Some in Hd.
  unfold mysql.number_of_text. cbn [mysql.skip_blanks].
  replace (mysql.is_blank (byte_val c)) with false
    by (unfold mysql.is_blank; symmetry; apply orb_false_iff; split;
        [ apply Z.eqb_neq | apply andb_false_iff; right; apply Z.leb_gt ];
        lia).
  replace (byte_val c =? 45) with false by (symmetry; apply Z.eqb_neq; lia).
  replace (byte_val c =? 43) with false by (symmetry; apply Z.eqb_neq; lia).
  reflexivity.
Qed.

Lemma string_of_uint_head (d : Decimal.uint) :
  has_digit d = true →
  ∃ c t k, NilEmpty.string_of_uint d = String c t
           ∧ strconv.digit_of c = Some k.
Proof.
  destruct d; [ done | intros _; do 3 eexists; split; reflexivity .. ].
Qed.

Lemma number_of_text_uint (d : Decimal.uint) :
  has_digit d = true →
  mysql.number_of_text (NilEmpty.string_of_uint d) = (uint_val 0 d, true).
Proof.
  intros Hd. destruct (string_of_uint_head d Hd) as (c & t & k & Hs & Hk).
  rewrite Hs, (number_of_text_digit c t k Hk), <- Hs.
  rewrite digits_prefix_uint, Hd. reflexivity.
Qed.

Lemma NilZero_string_of_uint_pos (p : positive) :
  NilZero.string_of_uint (Pos.to_uint p)
  = NilEmpty.string_of_uint (Pos.to_uint p)
  ∧ has_digit (Pos.to_uint p) = true.
Proof.
  pose proof (Unsigned.to_uint_nonnil p) as Hnil.
  destruct (Pos.to_uint p); [ done | by split .. ].
Qed.

(** Reading back what [Itoa] wrote. *)
Lemma number_of_text_Itoa (z : Z) :
  mysql.number_of_text (strconv.Itoa z) = (z, true).
Proof.
  destruct z as [ | p | p ]; [ reflexivity | | ];
    unfold strconv.Itoa; cbn [Z.to_int NilZero.string_of_int];
    destruct (NilZero_string_of_uint_pos p) as [-> Hd].
  - by rewrite (number_of_text_uint _ Hd), uint_val_to_uint.
  - destruct (string_of_uint_head _ Hd) as (c & t & k & Hs & Hk).
    unfold mysql.number_of_text.
    change (mysql.skip_blanks (String ?a ?b)) with (String a b).
    cbv beta iota.
    change (byte_val _ =? 45) with true. cbv iota.
    rewrite digits_prefix_uint, Hd, uint_val_to_uint. reflexivity.
Qed.

Lemma Atoi_Itoa (z : Z) :
  in_int64 z = true → strconv.Atoi (strconv.Itoa z) = Some z.
Proof.
  intros Hz.
  destruct z as [ | p | p ]; [ reflexivity | | ];
    unfold strconv.Itoa; cbn [Z.to_int NilZero.string_of_int];
    destruct (NilZero_string_of_uint_pos p) as [-> Hd];
    destruct (string_of_uint_head _ Hd) as (c & t & k & Hs & Hk).
  - pose proof (digit_of_Some _ _ Hk) as Hc.
    pose proof (digits_val_uint (Pos.to_uint p) 0) as Hv.
    rewrite uint_val_to_uint in Hv. rewrite Hs in Hv |- *.
    unfold strconv.Atoi.
    rewrite !bool_decide_eq_false_2 by lia. cbn [orb].
    rewrite Hv. cbv iota. by rewrite Hz.
  - pose proof (digits_val_uint (Pos.to_uint p) 0) as Hv.
    rewrite uint_val_to_uint in Hv.
    unfold strconv.Atoi.
    change (bool_decide (byte_val _ = 45)) with true. cbn [orb].
    cbv iota. rewrite Hv. rewrite Hs in Hv |- *.
    change (- Z.pos p) with (Z.neg p). by rewrite Hz.
Qed.



End DecimalText.

(** ** The response writer *)

Section Responses.

Implicit Types (w : http.ResponseWriter) (msg : string) (code : Z).

Lemma Wrote_Header_Set w k v :
  http.Wrote (http.Header_Set w k v) = http.Wrote w.
Proof. reflexivity. Qed.

Lemma Status_Error w msg code :
  http.Wrote w = None → http.Status (http.Error w msg code) = code.
Proof.
  intros Hw. unfold http.Error, http.Write, http.WriteHeader, http.Status.
  cbn. rewrite Hw. cbn. by destruct (http.bodyAllowedForStatus code).
Qed.

Lemma Body_Error w msg code :
  http.Wrote w = None → http.bodyAllowedForStatus code = true →
  http.Body (http.Error w msg code) = http.Body w +:+ msg +:+ newline.
Proof.
  intros Hw Hc. unfold http.Error, http.Write, http.WriteHeader.
  cbn. rewrite Hw. cbn. by rewrite Hc.
Qed.

Lemma Write_fresh w data :
  http.Wrote w = None →
  http.Write w data
  = {| http.RespHeader := http.RespHeader w;
       http.Wrote := Some (http.StatusOK, http.RespHeader w);
       http.Body := http.Body w +:+ data |}.
Proof. intros Hw. unfold http.Write, http.WriteHeader. by rewrite Hw. Qed.

Lemma Status_Encode_Pessoa w p :
  http.Wrote w = None → http.Status (json.Encode_Pessoa w p) = 200.
Proof. intros Hw. unfold json.Encode_Pessoa. by rewrite Write_fresh. Qed.

Lemma Body_Encode_Pessoa w p :
  http.Wrote w = None →
  http.Body (json.Encode_Pessoa w p)
  = http.Body w +:+ json.Marshal_Pessoa p +:+ newline.
Proof. intros Hw. unfold json.Encode_Pessoa. by rewrite Write_fresh. Qed.

End Responses.

(** ** The handlers over any driver and any decoder *)

Section AnyDriver.

Context {DB : Type} {C : sql.Conn DB} {D : json.Decoder}.

Implicit Types (r : http.Request) (db : DB).

(** The statuses a handler can answer with, whatever the storage does. *)
Lemma removerPessoa_status r db :
  let w := (removerPessoa http.newResponse r db).1 in
  http.Status w = 204 ∨ http.Status w = 500.
Proof.
  unfold removerPessoa.
  destruct (sql.Exec _ _ _) as [[res | err] db']; cbn; auto.
Qed.

Lemma obterPessoa_status r db :
  let w := (obterPessoa http.newResponse r db).1 in
  http.Status w = 200 ∨ http.Status w = 404 ∨ http.Status w = 500.
Proof.
  unfold obterPessoa.
  destruct (sql.QueryRow_Scan _ _ _) as [[[pid pnome] | err] db'];
    [ | destruct (decide (err = ErrNoRows)) ]; cbn; auto.
Qed.

(** [modificarPessoa] answers a path id that [Atoi] rejects with 415 or
    400, before it reaches the storage. *)
Lemma modificarPessoa_invalid_id r db :
  strconv.Atoi (http.var r "id") = None →
  let '(w, db') := modificarPessoa http.newResponse r db in
  (http.Status w = 415 ∨ (http.Status w = 400
     ∧ http.Body w = "ID inválido" +:+ newline))
  ∧ db' = db.
Proof.
  intros Hid. unfold modificarPessoa. rewrite Hid.
  destruct (decide _); cbn; auto.
Qed.

(** With no row to scan, [listaPessoas] is encoded as it was declared. *)
Lemma listarPessoas_no_rows r db db' :
  sql.Query db "SELECT id, nome FROM individuos" [] = (Ok [], db') →
  let w := (listarPessoas http.newResponse r db).1 in
  http.Status w = 200 ∧ http.Body w = "null" +:+ newline.
Proof. intros Hq. unfold listarPessoas. rewrite Hq. done. Qed.

(** What a successful [modificarPessoa] answered, and what it was sent. *)
Lemma modificarPessoa_200 r db :
  http.Status (modificarPessoa http.newResponse r db).1 = 200 →
  ∃ (id : Z) (p : Pessoa) (res : sql.Result) (n : Z),
    http.Get (http.ReqHeader r) "Content-Type" = "application/json"
    ∧ strconv.Atoi (http.var r "id") = Some id
    ∧ json.Decode (http.ReqBody r) zeroPessoa = Ok p
    ∧ sql.Exec db "UPDATE individuos SET nome = ? WHERE id = ?"
        [sql.Text (Nome p); sql.Int id]
      = (Ok res, (modificarPessoa http.newResponse r db).2)
    ∧ sql.RowsAffected res = Ok n ∧ n ≠ 0
    ∧ http.Body (modificarPessoa http.newResponse r db).1
      = json.Marshal_Pessoa {| ID := id; Nome := Nome p |} +:+ newline.
Proof.
  unfold modificarPessoa.
  destruct (decide _) as [ Hct | Hct ]; [ done | ].
  destruct (strconv.Atoi _) as [ id | ]; [ | done ].
  destruct (json.Decode _ _) as [ p | err ]; [ | done ].
  destruct (sql.Exec _ _ _) as [[res | err] db'] eqn:Hexec; [ | done ].
  destruct (sql.RowsAffected res) as [ n | err ] eqn:Hrows; [ | done ].
  destruct (decide (n = 0)) as [ Hn | Hn ]; [ done | ].
  intros _. exists id, p, res, n. repeat split; try done.
  by destruct (decide (http.Get (http.ReqHeader r) "Content-Type"
                       = "application/json")).
Qed.

(** With the content type [application/json] neither handler answers
    415. *)
Lemma json_content_type_not_415 r db :
  http.Get (http.ReqHeader r) "Content-Type" = "application/json" →
  http.Status (adicionarPessoa http.newResponse r db).1 ≠ 415
  ∧ http.Status (modificarPessoa http.newResponse r db).1 ≠ 415.
Proof.
  intros Hct. unfold adicionarPessoa, modificarPessoa.
  rewrite !decide_False by (by intros Hne). split.
  - destruct (json.Decode _ _) as [ p | err ]; [ | done ].
    destruct (sql.Exec _ _ _) as [[res | err] db']; [ | done ].
    by destruct (sql.LastInsertId res).
  - destruct (strconv.Atoi _) as [ id | ]; [ | done ].
    destruct (json.Decode _ _) as [ p | err ]; [ | done ].
    destruct (sql.Exec _ _ _) as [[res | err] db']; [ | done ].
    destruct (sql.RowsAffected res) as [ n | err ]; [ | done ].
    by destruct (decide (n = 0)).
Qed.

End AnyDriver.

(** ** The handlers over the table in memory *)

Section OverMySQL.

Context {D : json.Decoder}.

Implicit Types (r : http.Request) (db : mysql.Server).


Lemma insert_wf db nome : wf db → wf (mysql.insert db nome).2.
Proof.
  intros [Hai Hids]. unfold mysql.insert.
  destruct (255 <? _); [ done | ].
  destruct (mysql.individuos db !! mysql.AUTO_INCREMENT db); [ done | ].
  split; cbn.
  - unfold mysql.maxINT in *. lia.
  - intros id n. rewrite lookup_insert. case_decide; [ | by eauto ].
    intros _. by subst.
Qed.

Lemma delete_by_id_wf db id : wf db → wf (mysql.delete_by_id db id).2.
Proof.
  intros [Hai Hids]. unfold mysql.delete_by_id.
  destruct (mysql.number_of_text id) as [v numeric].
  destruct numeric; [ | done ]. cbn [negb].
  destruct (mysql.individuos db !! v); [ | done ].
  split; cbn; [ done | ].
  intros k n. rewrite lookup_delete. case_decide; [ done | by eauto ].
Qed.

Lemma update_wf db nome id : wf db → wf (mysql.update db nome id).2.
Proof.
  intros [Hai Hids]. unfold mysql.update.
  destruct (mysql.individuos db !! id) as [ old | ] eqn:Hold; [ | done ].
  destruct (255 <? _); [ done | ].
  destruct (decide _) as [ Hsame | Hnew ]; [ done | ].
  split; cbn; [ done | ].
  intros k nm. rewrite lookup_insert. case_decide; [ | by eauto ].
  intros _. subst. by eauto.
Qed.

Lemma Exec_wf db q args : wf db → wf (mysql.Exec db q args).2.
Proof.
  intros Hwf. unfold mysql.Exec.
  destruct (negb _); [ done | ].
  destruct args as [ | [ a | z ] [ | [ a' | z' ] [ | ? ? ] ] ]; try done.
  - destruct (decide _); [ by apply insert_wf | ].
    destruct (decide _); [ by apply delete_by_id_wf | done ].
  - destruct (decide _); [ by apply update_wf | done ].
Qed.

(** What a successful [INSERT] did. *)
Lemma Exec_insert_Ok db nome res db' :
  sql.Exec db "INSERT INTO individuos (nome) VALUES (?)" [sql.Text nome]
  = (Ok res, db') →
  mysql.alive db = true
  ∧ mysql.CHAR_LENGTH nome ≤ 255
  ∧ mysql.individuos db !! mysql.AUTO_INCREMENT db = None
  ∧ res = mysql.executed 1 (mysql.AUTO_INCREMENT db)
  ∧ mysql.individuos db'
    = <[mysql.AUTO_INCREMENT db := nome]> (mysql.individuos db)
  ∧ mysql.alive db' = true.
Proof.
  cbn. unfold mysql.Exec. destruct (mysql.alive db) eqn:Halive; [ | done ].
  cbn [negb]. rewrite decide_True by done. unfold mysql.insert.
  destruct (255 <? _) eqn:Hlen; [ done | ].
  destruct (mysql.individuos db !! _) eqn:Hfree; [ done | ].
  intros [= <- <-]. cbn. apply Z.ltb_ge in Hlen. done.
Qed.

(** A [SELECT ... WHERE id = ?] with a text that reads as a stored id. *)
Lemma QueryRow_Scan_text db (s : string) id nome :
  mysql.alive db = true → (mysql.number_of_text s).1 = id →
  mysql.individuos db !! id = Some nome →
  sql.QueryRow_Scan db "SELECT id, nome FROM individuos WHERE id = ?"
    [sql.Text s]
  = (Ok (id, nome), db).
Proof.
  intros Halive Hs Hrow. cbn. unfold mysql.QueryRow_Scan. rewrite Halive.
  cbn [negb]. rewrite decide_True by done.
  unfold mysql.select_by_id. rewrite Hs. by rewrite Hrow.
Qed.

Lemma QueryRow_Scan_Itoa db id nome :
  mysql.alive db = true → mysql.individuos db !! id = Some nome →
  sql.QueryRow_Scan db "SELECT id, nome FROM individuos WHERE id = ?"
    [sql.Text (strconv.Itoa id)]
  = (Ok (id, nome), db).
Proof.
  intros Halive Hrow. apply QueryRow_Scan_text; [ done | | done ].
  by rewrite number_of_text_Itoa.
Qed.


(** What a successful [UPDATE] that changed a row did. *)
Lemma Exec_update_Ok db db' nome (id n : Z) res :
  sql.Exec db "UPDATE individuos SET nome = ? WHERE id = ?"
    [sql.Text nome; sql.Int id] = (Ok res, db') →
  sql.RowsAffected res = Ok n → n ≠ 0 →
  is_Some (mysql.individuos db !! id)
  ∧ mysql.individuos db' = <[id := nome]> (mysql.individuos db)
  ∧ mysql.alive db' = true.
Proof.
  cbn. unfold mysql.Exec. destruct (mysql.alive db) eqn:Halive; [ | done ].
  cbn [negb]. rewrite decide_True by done. unfold mysql.update.
  destruct (mysql.individuos db !! id) as [ old | ] eqn:Hold.
  - destruct (255 <? _); [ done | ].
    destruct (decide (old = nome)).
    + intros [= <- <-]. cbn. intros [= <-]. done.
    + intros [= <- <-]. cbn. intros _ _. split; [ by eexists | done ].
  - intros [= <- <-]. cbn. intros [= <-]. done.
Qed.

(** X18.  Every handler leaves the table within its invariant: the ids
    and the counter of the table stay within the [INT] column, whatever
    the request. *)
Lemma handlers_preserve_wf r db :
  wf db →
  wf (listarPessoas http.newResponse r db).2
  ∧ wf (obterPessoa http.newResponse r db).2
  ∧ wf (adicionarPessoa http.newResponse r db).2
  ∧ wf (removerPessoa http.newResponse r db).2
  ∧ wf (modificarPessoa http.newResponse r db).2.
Proof.
  intros Hwf. refine (conj _ (conj _ (conj _ (conj _ _)))).
  - unfold listarPessoas. cbn. unfold mysql.Query.
    destruct (negb _); [ done | ]. rewrite decide_True by done.
    by destruct (scanRows _ _).
  - unfold obterPessoa. cbn. unfold mysql.QueryRow_Scan.
    destruct (negb _); [ done | ]. rewrite decide_True by done.
    destruct (mysql.select_by_id _ _) as [[pid pnome] | err]; [ done | ].
    by destruct (decide _).
  - unfold adicionarPessoa. destruct (decide _) as [ Hct | Hct ]; [ done | ].
    destruct (json.Decode _ _) as [ p | err ]; [ | done ].
    pose proof (Exec_wf db "INSERT INTO individuos (nome) VALUES (?)"
                  [sql.Text (Nome p)] Hwf) as Hexec.
    change mysql.Exec with (sql.Exec (DB := mysql.Server)) in Hexec.
    destruct (sql.Exec _ _ _) as [[res | err] db']; [ | done ].
    by destruct (sql.LastInsertId res).
  - unfold removerPessoa.
    pose proof (Exec_wf db "DELETE FROM individuos WHERE id = ?"
                  [sql.Text (http.var r "id")] Hwf) as Hexec.
    change mysql.Exec with (sql.Exec (DB := mysql.Server)) in Hexec.
    by destruct (sql.Exec _ _ _) as [[res | err] db'].
  - unfold modificarPessoa. destruct (decide _) as [ Hct | Hct ]; [ done | ].
    destruct (strconv.Atoi _) as [ id | ]; [ | done ].
    destruct (json.Decode _ _) as [ p | err ]; [ | done ].
    pose proof (Exec_wf db "UPDATE individuos SET nome = ? WHERE id = ?"
                  [sql.Text (Nome p); sql.Int id] Hwf) as Hexec.
    change mysql.Exec with (sql.Exec (DB := mysql.Server)) in Hexec.
    destruct (sql.Exec _ _ _) as [[res | err] db']; [ | done ].
    destruct (sql.RowsAffected res) as [ k | err ]; [ | done ].
    by destruct (decide (k = 0)).
Qed.


End OverMySQL.

(** ** The claims *)



(** C2.  [GET /pessoas] on a table without rows answers 200, and the body
    is the JSON text [null], not [[]]: [listaPessoas] is still the nil
    slice when it is encoded. *)
Theorem listarPessoas_empty_table (r : http.Request) :
  let w := (listarPessoas http.newResponse r mysql.empty).1 in
  http.Status w = 200
  ∧ http.Body w = "null" +:+ newline
  ∧ http.Body w ≠ json.Marshal_slice (Some []) +:+ newline.
Proof. by vm_compute. Qed.

(** C3.  [GET /pessoas/{id}]: when the lookup fails with [sql.ErrNoRows]
    the status is 404, and when it fails with any other error the status
    is 500. *)
Theorem obterPessoa_lookup_failure {DB : Type} {C : sql.Conn DB}
    (r : http.Request) (db db' : DB) (err : error) :
  sql.QueryRow_Scan db "SELECT id, nome FROM individuos WHERE id = ?"
    [sql.Text (http.var r "id")] = (Err err, db') →
  let w := (obterPessoa http.newResponse r db).1 in
  (err = ErrNoRows → http.Status w = 404)
  ∧ (err ≠ ErrNoRows → http.Status w = 500).
Proof.
  intros Hq. unfold obterPessoa. rewrite Hq.
  destruct (decide (err = ErrNoRows)); cbn; split; done.
Qed.

(** C3 at [GET /pessoas/2] on the table that holds id 1 only, and at
    [GET /pessoas/1] on a server that cannot be reached. *)
Lemma obterPessoa_lookup_failure_examples :
  http.Status (obterPessoa http.newResponse (at_id "2") one_Ana).1 = 404
  ∧ http.Status (obterPessoa http.newResponse (at_id "1") unreachable).1
    = 500.
Proof.
  split.
  - refine (proj1 (obterPessoa_lookup_failure (at_id "2") one_Ana one_Ana
                     ErrNoRows _) _); reflexivity.
  - refine (proj2 (obterPessoa_lookup_failure (at_id "1") unreachable
                     unreachable mysql.bad_connection _) _);
      [ reflexivity | discriminate ].
Defined.

(** C4.  [PUT /pessoas/{id}] with content type [application/json], a path
    id that [Atoi] accepts and a body that decodes: when the [UPDATE]
    reports zero rows affected the status is 404; when it reports any other
    count the response is 200 with the JSON of the Person made of the path
    id and the name of the body, sent as [application/json]. *)
Theorem modificarPessoa_rows_affected {DB : Type} {C : sql.Conn DB}
    {D : json.Decoder} (r : http.Request) (db db' : DB) (id : Z)
    (pessoaAtualizada : Pessoa) (resultado : sql.Result)
    (linhasAfetadas : Z) :
  http.Get (http.ReqHeader r) "Content-Type" = "application/json" →
  strconv.Atoi (http.var r "id") = Some id →
  json.Decode (http.ReqBody r) zeroPessoa = Ok pessoaAtualizada →
  sql.Exec db "UPDATE individuos SET nome = ? WHERE id = ?"
    [sql.Text (Nome pessoaAtualizada); sql.Int id] = (Ok resultado, db') →
  sql.RowsAffected resultado = Ok linhasAfetadas →
  let w := (modificarPessoa http.newResponse r db).1 in
  (linhasAfetadas = 0 → http.Status w = 404)
  ∧ (linhasAfetadas ≠ 0 →
     http.Status w = 200
     ∧ http.Body w
       = json.Marshal_Pessoa {| ID := id; Nome := Nome pessoaAtualizada |}
           +:+ newline
     ∧ http.SentHeader w !! "Content-Type" = Some ["application/json"]).
Proof.
  intros Hct Hid Hdec Hexec Hrows. unfold modificarPessoa.
  rewrite decide_False by (by intros Hne). rewrite Hid, Hdec, Hexec, Hrows.
  destruct (decide (linhasAfetadas = 0)); cbn; split; done.
Qed.

(** C4 at [PUT /pessoas/1] with [{"nome":"Bia"}] on the table that holds
    [(1, "Ana")] (one row affected), and at [PUT /pessoas/2] (none). *)
Lemma modificarPessoa_rows_affected_examples :
  (let w := (modificarPessoa http.newResponse
               (PUT "1" "application/json" (nome_body "Bia")) one_Ana).1 in
   http.Status w = 200
   ∧ http.Body w
     = json.Marshal_Pessoa {| ID := 1; Nome := "Bia" |} +:+ newline
   ∧ http.SentHeader w !! "Content-Type" = Some ["application/json"])
  ∧ http.Status
      (modificarPessoa http.newResponse
         (PUT "2" "application/json" (nome_body "Bia")) one_Ana).1 = 404.
Proof.
  split.
  - refine (proj2 (modificarPessoa_rows_affected (D := decoder.go_decoder)
                     (PUT "1" "application/json" (nome_body "Bia")) one_Ana
                     (mysql.update one_Ana "Bia" 1).2 1
                     {| ID := 0; Nome := "Bia" |} (mysql.executed 1 0) 1
                     _ _ _ _ _) _);
      [ reflexivity | reflexivity | reflexivity | vm_compute; reflexivity
      | reflexivity | lia ].
  - refine (proj1 (modificarPessoa_rows_affected (D := decoder.go_decoder)
                     (PUT "2" "application/json" (nome_body "Bia")) one_Ana
                     one_Ana 2 {| ID := 0; Nome := "Bia" |}
                     (mysql.executed 0 0) 0 _ _ _ _ _) _);
      [ reflexivity | reflexivity | reflexivity | vm_compute; reflexivity
      | reflexivity | reflexivity ].
Defined.

(** C5.  [DELETE /pessoas/{id}]: whenever the [DELETE] statement succeeds
    the status is 204 and the body is empty, whatever the statement
    reports about the rows it found. *)
Theorem removerPessoa_no_content {DB : Type} {C : sql.Conn DB}
    (r : http.Request) (db db' : DB) (resultado : sql.Result) :
  sql.Exec db "DELETE FROM individuos WHERE id = ?"
    [sql.Text (http.var r "id")] = (Ok resultado, db') →
  let w := (removerPessoa http.newResponse r db).1 in
  http.Status w = 204 ∧ http.Body w = "".
Proof. intros Hexec. unfold removerPessoa. rewrite Hexec. done. Qed.

(** C5 at [DELETE /pessoas/1], a stored id, and at [DELETE /pessoas/7], an
    id that is not stored. *)
Lemma removerPessoa_no_content_examples :
  (let w := (removerPessoa http.newResponse (at_id "1") one_Ana).1 in
   http.Status w = 204 ∧ http.Body w = "")
  ∧ (let w := (removerPessoa http.newResponse (at_id "7") one_Ana).1 in
     http.Status w = 204 ∧ http.Body w = "").
Proof.
  split.
  - apply (removerPessoa_no_content (at_id "1") one_Ana
             (mysql.delete_by_id one_Ana "1").2 (mysql.executed 1 0)).
    vm_compute; reflexivity.
  - apply (removerPessoa_no_content (at_id "7") one_Ana one_Ana
             (mysql.executed 0 0)).
    vm_compute; reflexivity.
Defined.

(** C6.  [POST /pessoas] and [PUT /pessoas/{id}]: when the Content-Type
    header is anything but [application/json] (so, in particular, when it
    does not declare JSON) the status is 415, whatever the body, and the
    storage is left as it was. *)
Theorem not_json_unsupported_media_type {DB : Type} {C : sql.Conn DB}
    {D : json.Decoder} (r : http.Request) (db : DB) :
  http.Get (http.ReqHeader r) "Content-Type" ≠ "application/json" →
  (let '(w, db') := adicionarPessoa http.newResponse r db in
   http.Status w = 415 ∧ db' = db)
  ∧ (let '(w, db') := modificarPessoa http.newResponse r db in
     http.Status w = 415 ∧ db' = db).
Proof.
  intros Hct. unfold adicionarPessoa, modificarPessoa.
  rewrite !decide_True by done. done.
Qed.

(** C6 at content type [text/plain] with a body that is a JSON object. *)
Lemma not_json_unsupported_media_type_text_plain :
  (let '(w, db') :=
     adicionarPessoa http.newResponse
       (PUT "1" "text/plain" (nome_body "Ana")) one_Ana in
   http.Status w = 415 ∧ db' = one_Ana)
  ∧ (let '(w, db') :=
       modificarPessoa http.newResponse
         (PUT "1" "text/plain" (nome_body "Ana")) one_Ana in
     http.Status w = 415 ∧ db' = one_Ana).
Proof.
  apply (not_json_unsupported_media_type (D := decoder.go_decoder)
           (PUT "1" "text/plain" (nome_body "Ana")) one_Ana).
  vm_compute. discriminate.
Defined.

(** C7.  The path id [abc] is no integer for [Atoi], and
    [DELETE /pessoas/abc] is answered 204 or 500 whatever the storage does
    with the text, never with a 4xx status; [GET /pessoas/abc] on a server
    that cannot be reached is answered 500. *)
Theorem removerPessoa_invalid_id {DB : Type} {C : sql.Conn DB} (db : DB) :
  strconv.Atoi "abc" = None
  ∧ (let w := (removerPessoa http.newResponse (at_id "abc") db).1 in
     http.Status w = 204 ∨ http.Status w = 500)
  ∧ http.Status (obterPessoa http.newResponse (at_id "abc") unreachable).1
    = 500.
Proof.
  split; [ reflexivity | split; [ apply removerPessoa_status | reflexivity ] ].
Qed.




(** C9.  [POST /pessoas] and [PUT /pessoas/{id}] answer 415 exactly when
    the Content-Type header is not the text [application/json]; so the
    body [{"nome":"Ana"}], which both handlers accept under
    [application/json], is rejected with 415 under
    [application/json; charset=utf-8]. *)
Theorem content_type_exact :
  (∀ (DB : Type) (C : sql.Conn DB) (D : json.Decoder) (r : http.Request)
     (db : DB),
     (http.Status (adicionarPessoa http.newResponse r db).1 = 415
      ↔ http.Get (http.ReqHeader r) "Content-Type" ≠ "application/json")
     ∧ (http.Status (modificarPessoa http.newResponse r db).1 = 415
        ↔ http.Get (http.ReqHeader r) "Content-Type" ≠ "application/json"))
  ∧ (let ana := PUT "1" "application/json" (nome_body "Ana") in
     let ana_utf8 :=
       PUT "1" "application/json; charset=utf-8" (nome_body "Ana") in
     http.Status (adicionarPessoa http.newResponse ana mysql.empty).1 = 200
     ∧ http.Status (adicionarPessoa http.newResponse ana_utf8 mysql.empty).1
       = 415
     ∧ http.Status (modificarPessoa http.newResponse ana
                      {| mysql.individuos := {[ 1 := "Zoe" ]};
                         mysql.AUTO_INCREMENT := 2; mysql.alive := true |}).1
       = 200
     ∧ http.Status (modificarPessoa http.newResponse ana_utf8
                      {| mysql.individuos := {[ 1 := "Zoe" ]};
                         mysql.AUTO_INCREMENT := 2; mysql.alive := true |}).1
       = 415).
Proof.
  split.
  - intros DB C D r db. split; split.
    + intros H415 Hct.
      destruct (json_content_type_not_415 r db Hct) as [Hne _].
      exact (Hne H415).
    + intros Hct. unfold adicionarPessoa.
      rewrite decide_True by assumption. reflexivity.
    + intros H415 Hct.
      destruct (json_content_type_not_415 r db Hct) as [_ Hne].
      exact (Hne H415).
    + intros Hct. unfold modificarPessoa.
      rewrite decide_True by assumption. reflexivity.
  - vm_compute. done.
Qed.

(** C10.  The body of a successful [PUT /pessoas/{id}] is the JSON of the
    Person made of the path id and the name of the request body: two
    successful updates with the same path id and the same name answer with
    the same body, whatever their storages hold and whatever [id] members
    their bodies carry. *)
Theorem modificarPessoa_body_from_request
    {DB1 : Type} {C1 : sql.Conn DB1} {DB2 : Type} {C2 : sql.Conn DB2}
    {D : json.Decoder} (r1 r2 : http.Request) (db1 : DB1) (db2 : DB2)
    (p1 p2 : Pessoa) :
  http.var r1 "id" = http.var r2 "id" →
  json.Decode (http.ReqBody r1) zeroPessoa = Ok p1 →
  json.Decode (http.ReqBody r2) zeroPessoa = Ok p2 →
  Nome p1 = Nome p2 →
  let w1 := (modificarPessoa http.newResponse r1 db1).1 in
  let w2 := (modificarPessoa http.newResponse r2 db2).1 in
  http.Status w1 = 200 → http.Status w2 = 200 →
  http.Body w1 = http.Body w2
  ∧ ∃ id : Z,
      strconv.Atoi (http.var r1 "id") = Some id
      ∧ http.Body w1
        = json.Marshal_Pessoa {| ID := id; Nome := Nome p1 |} +:+ newline.
Proof.
  intros Hid Hdec1 Hdec2 Hnome w1 w2 Hok1 Hok2.
  destruct (modificarPessoa_200 r1 db1 Hok1)
    as (id1 & q1 & _ & _ & _ & Hid1 & Hq1 & _ & _ & _ & Hbody1).
  destruct (modificarPessoa_200 r2 db2 Hok2)
    as (id2 & q2 & _ & _ & _ & Hid2 & Hq2 & _ & _ & _ & Hbody2).
  rewrite Hdec1 in Hq1. injection Hq1 as <-.
  rewrite Hdec2 in Hq2. injection Hq2 as <-.
  rewrite <- Hid, Hid1 in Hid2. injection Hid2 as <-.
  subst w1 w2. split.
  - by rewrite Hbody1, Hbody2, Hnome.
  - by exists id1.
Qed.

(** C10 at [PUT /pessoas/1]: once with [{"id":99,"nome":"Bia"}] on the
    table that holds [(1, "Ana")], once with [{"nome":"Bia"}] on a table
    that holds [(1, "Zoe")]. *)
Lemma modificarPessoa_body_from_request_Bia :
  let w1 :=
    (modificarPessoa http.newResponse
       (PUT "1" "application/json"
          (json.Marshal_Pessoa {| ID := 99; Nome := "Bia" |})) one_Ana).1 in
  let w2 :=
    (modificarPessoa http.newResponse
       (PUT "1" "application/json" (nome_body "Bia"))
       {| mysql.individuos := {[ 1 := "Zoe" ]}; mysql.AUTO_INCREMENT := 5;
          mysql.alive := true |}).1 in
  http.Body w1 = http.Body w2
  ∧ ∃ id : Z,
      strconv.Atoi "1" = Some id
      ∧ http.Body w1
        = json.Marshal_Pessoa {| ID := id; Nome := "Bia" |} +:+ newline.
Proof.
  refine (modificarPessoa_body_from_request (D := decoder.go_decoder)
            (PUT "1" "application/json"
               (json.Marshal_Pessoa {| ID := 99; Nome := "Bia" |}))
            (PUT "1" "application/json" (nome_body "Bia"))
            one_Ana
            {| mysql.individuos := {[ 1 := "Zoe" ]};
               mysql.AUTO_INCREMENT := 5; mysql.alive := true |}
            {| ID := 99; Nome := "Bia" |} {| ID := 0; Nome := "Bia" |}
            _ _ _ _ _ _); vm_compute; reflexivity.
Defined.


(** * Further properties of the handlers *)

(** ** Over any driver and any decoder *)

Lemma scanRows_app (rows : list (Z * string))
    (rest : list sql.scanned) (acc : list Pessoa) (s : slice Pessoa) :
  default [] s = acc →
  (rows = [] → scanRows ((Ok <$> rows) ++ rest) s
               = scanRows rest s)
  ∧ (rows ≠ [] → scanRows ((Ok <$> rows) ++ rest) s
                 = scanRows rest
                     (Some (acc ++ (pessoa_of <$> rows)))).
Proof.
  revert acc s. induction rows as [ | [id nome] rows IH ]; intros acc s Hs.
  - split; [ done | by intros [] ].
  - split; [ done | intros _ ]. cbn [fmap list_fmap app scanRows].
    destruct (IH (acc ++ [pessoa_of (id, nome)])
                (append s {| ID := id; Nome := nome |})) as [Hnil Hcons].
    { unfold append. cbn. by rewrite Hs. }
    destruct rows as [ | row rows ].
    + rewrite Hnil by done. unfold append. by rewrite Hs.
    + rewrite Hcons by done. by rewrite <- app_assoc.
Qed.

(** X1.  The statuses of the five handlers: [listarPessoas] answers 200 or
    500, [obterPessoa] 200, 404 or 500, [adicionarPessoa] 200, 400, 415 or
    500, [removerPessoa] 204 or 500, [modificarPessoa] 200, 400, 404, 415
    or 500, and nothing else, whatever the request and the storage. *)
Theorem handler_statuses {DB : Type} {C : sql.Conn DB} {D : json.Decoder}
    (r : http.Request) (db : DB) :
  http.Status (listarPessoas http.newResponse r db).1 ∈ [200; 500]
  ∧ http.Status (obterPessoa http.newResponse r db).1 ∈ [200; 404; 500]
  ∧ http.Status (adicionarPessoa http.newResponse r db).1
    ∈ [200; 400; 415; 500]
  ∧ http.Status (removerPessoa http.newResponse r db).1 ∈ [204; 500]
  ∧ http.Status (modificarPessoa http.newResponse r db).1
    ∈ [200; 400; 404; 415; 500].
Proof.
  refine (conj _ (conj _ (conj _ (conj _ _)))).
  - unfold listarPessoas.
    destruct (sql.Query _ _ _) as [[rows | err] db']; [ | cbn; set_solver ].
    destruct (scanRows rows nil_slice); cbn; set_solver.
  - unfold obterPessoa.
    destruct (sql.QueryRow_Scan _ _ _) as [[[pid pnome] | err] db'];
      [ | destruct (decide (err = ErrNoRows)) ]; cbn; set_solver.
  - unfold adicionarPessoa.
    destruct (decide _) as [ Hct | Hct ]; [ cbn; set_solver | ].
    destruct (json.Decode _ _) as [ p | err ]; [ | cbn; set_solver ].
    destruct (sql.Exec _ _ _) as [[res | err] db']; [ | cbn; set_solver ].
    destruct (sql.LastInsertId res); cbn; set_solver.
  - unfold removerPessoa.
    destruct (sql.Exec _ _ _) as [[res | err] db']; cbn; set_solver.
  - unfold modificarPessoa.
    destruct (decide _) as [ Hct | Hct ]; [ cbn; set_solver | ].
    destruct (strconv.Atoi _) as [ id | ]; [ | cbn; set_solver ].
    destruct (json.Decode _ _) as [ p | err ]; [ | cbn; set_solver ].
    destruct (sql.Exec _ _ _) as [[res | err] db']; [ | cbn; set_solver ].
    destruct (sql.RowsAffected res) as [ k | err ]; [ | cbn; set_solver ].
    destruct (decide (k = 0)); cbn; set_solver.
Qed.

(** X2.  A body the decoder rejects: with the content type
    [application/json], [adicionarPessoa] answers 400 with the text of the
    decoding error and leaves the storage as it was, and so does
    [modificarPessoa] when the path id is an integer. *)
Theorem decode_error_bad_request {DB : Type} {C : sql.Conn DB}
    {D : json.Decoder} (r : http.Request) (db : DB) (err : error) :
  http.Get (http.ReqHeader r) "Content-Type" = "application/json" →
  json.Decode (http.ReqBody r) zeroPessoa = Err err →
  (let '(w, db') := adicionarPessoa http.newResponse r db in
   http.Status w = 400
   ∧ http.Body w = "Erro ao decodificar JSON: " +:+ Error_ err +:+ newline
   ∧ db' = db)
  ∧ (is_Some (strconv.Atoi (http.var r "id")) →
     let '(w, db') := modificarPessoa http.newResponse r db in
     http.Status w = 400
     ∧ http.Body w = "Erro ao decodificar JSON: " +:+ Error_ err +:+ newline
     ∧ db' = db).
Proof.
  intros Hct Hdec. unfold adicionarPessoa, modificarPessoa.
  rewrite !decide_False by (by intros Hne). rewrite Hdec.
  split; [ done | ]. intros [id ->]. done.
Qed.

(** X2 at the body [{nome], which is no JSON, sent with path id 1 to both
    handlers: the scanner stops at the [n], where an object key has to
    start with a quote. *)
Lemma decode_error_bad_request_example :
  (let '(w, db') :=
     adicionarPessoa http.newResponse
       (PUT "1" "application/json" "{nome") one_Ana in
   http.Status w = 400
   ∧ http.Body w
     = "Erro ao decodificar JSON: invalid character 'n' looking for "
         +:+ "beginning of object key string" +:+ newline
   ∧ db' = one_Ana)
  ∧ (let '(w, db') :=
       modificarPessoa http.newResponse
         (PUT "1" "application/json" "{nome") one_Ana in
     http.Status w = 400
     ∧ http.Body w
       = "Erro ao decodificar JSON: invalid character 'n' looking for "
           +:+ "beginning of object key string" +:+ newline
     ∧ db' = one_Ana).
Proof.
  destruct (decode_error_bad_request (D := decoder.go_decoder)
              (PUT "1" "application/json" "{nome") one_Ana
              (decoder.SyntaxError
                 "n" "looking for beginning of object key string")
              eq_refl eq_refl) as [Hpost Hput].
  split; [ exact Hpost | apply Hput; by eexists ].
Defined.

(** X3.  [modificarPessoa] checks the path id before it reads the body:
    with the content type [application/json] and a path id that [Atoi]
    rejects, it answers 400 [ID inválido] and leaves the storage as it
    was, whatever the body. *)
Theorem modificarPessoa_bad_id {DB : Type} {C : sql.Conn DB}
    {D : json.Decoder} (r : http.Request) (db : DB) :
  http.Get (http.ReqHeader r) "Content-Type" = "application/json" →
  strconv.Atoi (http.var r "id") = None →
  let '(w, db') := modificarPessoa http.newResponse r db in
  http.Status w = 400
  ∧ http.Body w = "ID inválido" +:+ newline
  ∧ db' = db.
Proof.
  intros Hct Hid. unfold modificarPessoa.
  rewrite decide_False by (by intros Hne). by rewrite Hid.
Qed.

(** X3 at [PUT /pessoas/1.5] with a body that is no JSON either. *)
Lemma modificarPessoa_bad_id_example :
  let '(w, db') :=
    modificarPessoa http.newResponse
      (PUT "1.5" "application/json" "{nome") one_Ana in
  http.Status w = 400
  ∧ http.Body w = "ID inválido" +:+ newline
  ∧ db' = one_Ana.
Proof.
  exact (modificarPessoa_bad_id (D := decoder.go_decoder)
           (PUT "1.5" "application/json" "{nome") one_Ana eq_refl eq_refl).
Defined.

(** X4.  [listarPessoas] when the query and every [Scan] succeed: status
    200, content type [application/json], and the body is the JSON array
    of the rows as Persons, in the order the storage gave them ([null]
    when there was none). *)
Theorem listarPessoas_rows {DB : Type} {C : sql.Conn DB}
    (r : http.Request) (db db' : DB) (rows : list (Z * string)) :
  sql.Query db "SELECT id, nome FROM individuos" [] = (Ok (Ok <$> rows), db') →
  let '(w, db'') := listarPessoas http.newResponse r db in
  http.Status w = 200
  ∧ http.SentHeader w !! "Content-Type" = Some ["application/json"]
  ∧ http.Body w
    = json.Marshal_slice
        (match rows with [] => None | _ => Some (pessoa_of <$> rows) end)
        +:+ newline
  ∧ db'' = db'.
Proof.
  intros Hq. unfold listarPessoas. rewrite Hq.
  destruct (scanRows_app rows [] [] nil_slice eq_refl)
    as [Hnil Hcons].
  rewrite app_nil_r in Hnil, Hcons.
  destruct rows as [ | row rows ].
  - rewrite Hnil by done. done.
  - rewrite Hcons by done. done.
Qed.

(** X4 on a script that answers the query with the rows [(2, "Bia")] and
    [(1, "Ana")], in that order. *)
Lemma listarPessoas_rows_example :
  let script :=
    {| canned.on_Query := Ok [Ok (2, "Bia"); Ok (1, "Ana")];
       canned.on_QueryRow := Err ErrNoRows;
       canned.on_Exec := Err ErrNoRows |} in
  let '(w, db'') := listarPessoas http.newResponse (at_id "") script in
  http.Status w = 200
  ∧ http.SentHeader w !! "Content-Type" = Some ["application/json"]
  ∧ http.Body w
    = json.Marshal_slice
        (Some [ {| ID := 2; Nome := "Bia" |}; {| ID := 1; Nome := "Ana" |} ])
        +:+ newline
  ∧ db'' = script.
Proof.
  exact (listarPessoas_rows (at_id "")
           {| canned.on_Query := Ok [Ok (2, "Bia"); Ok (1, "Ana")];
              canned.on_QueryRow := Err ErrNoRows;
              canned.on_Exec := Err ErrNoRows |} _
           [(2, "Bia"); (1, "Ana")] eq_refl).
Defined.

(** X5.  [listarPessoas] when the storage fails: a failing query gives 500
    with its error text, and a failing [Scan] gives 500 with that error
    text and nothing else in the body, however many rows were scanned
    before it. *)
Theorem listarPessoas_failure {DB : Type} {C : sql.Conn DB}
    (r : http.Request) (db db' : DB) (err : error) :
  (sql.Query db "SELECT id, nome FROM individuos" [] = (Err err, db') →
   let w := (listarPessoas http.newResponse r db).1 in
   http.Status w = 500
   ∧ http.Body w = "Erro ao buscar pessoas: " +:+ Error_ err +:+ newline)
  ∧ (∀ (scanned : list (Z * string)) (rest : list sql.scanned),
       sql.Query db "SELECT id, nome FROM individuos" []
       = (Ok ((Ok <$> scanned) ++ Err err :: rest), db') →
       let w := (listarPessoas http.newResponse r db).1 in
       http.Status w = 500
       ∧ http.Body w
         = "Erro ao escanear pessoa: " +:+ Error_ err +:+ newline).
Proof.
  split.
  - intros Hq. unfold listarPessoas. by rewrite Hq.
  - intros scanned rest Hq. unfold listarPessoas. rewrite Hq.
    destruct (scanRows_app scanned (Err err :: rest) []
                nil_slice eq_refl) as [Hnil Hcons].
    unfold sql.scanned in *.
    destruct scanned as [ | row scanned ].
    + rewrite Hnil by done. done.
    + rewrite Hcons by done. done.
Qed.

(** X5 on the server that cannot be reached, and on a script whose second
    row fails to scan. *)
Lemma listarPessoas_failure_examples :
  (let w := (listarPessoas http.newResponse (at_id "") unreachable).1 in
   http.Status w = 500
   ∧ http.Body w
     = "Erro ao buscar pessoas: " +:+ Error_ mysql.bad_connection
         +:+ newline)
  ∧ (let w :=
       (listarPessoas http.newResponse (at_id "")
          {| canned.on_Query :=
               Ok [Ok (1, "Ana"); Err (errorString "converting NULL")];
             canned.on_QueryRow := Err ErrNoRows;
             canned.on_Exec := Err ErrNoRows |}).1 in
     http.Status w = 500
     ∧ http.Body w = "Erro ao escanear pessoa: converting NULL" +:+ newline).
Proof.
  split.
  - exact (proj1 (listarPessoas_failure (at_id "") unreachable unreachable
                    mysql.bad_connection) eq_refl).
  - exact (proj2 (listarPessoas_failure (at_id "")
                    {| canned.on_Query :=
                         Ok [Ok (1, "Ana");
                             Err (errorString "converting NULL")];
                       canned.on_QueryRow := Err ErrNoRows;
                       canned.on_Exec := Err ErrNoRows |} _
                    (errorString "converting NULL")) [(1, "Ana")] []
             eq_refl).
Defined.

(** X6.  Every response of the five handlers is labelled for what it is:
    JSON when the status is 200, one line of plain text with [nosniff]
    when it is an error (also from [adicionarPessoa] and
    [modificarPessoa], which set the JSON content type first), nothing at
    all when it is 204. *)
Theorem responses_labelled {DB : Type} {C : sql.Conn DB} {D : json.Decoder}
    (r : http.Request) (db : DB) :
  labelled (listarPessoas http.newResponse r db).1
  ∧ labelled (obterPessoa http.newResponse r db).1
  ∧ labelled (adicionarPessoa http.newResponse r db).1
  ∧ labelled (removerPessoa http.newResponse r db).1
  ∧ labelled (modificarPessoa http.newResponse r db).1.
Proof.
  assert (∀ (w : http.ResponseWriter) (msg : string) (code : Z),
            http.Wrote w = None → 400 ≤ code ≤ 599 →
            labelled (http.Error w msg code)) as Herror.
  { intros w msg code Hw Hcode. unfold labelled.
    rewrite Status_Error by done.
    assert (http.bodyAllowedForStatus code = true) as Hbody.
    { unfold http.bodyAllowedForStatus, http.StatusNoContent,
        http.StatusNotModified.
      rewrite (proj2 (andb_false_iff _ _))
        by (right; apply Z.leb_gt; lia).
      rewrite !(proj2 (Z.eqb_neq _ _)) by lia. done. }
    split; [ lia | split; [ intros _ | lia ] ].
    unfold http.Error, http.Write, http.WriteHeader, http.SentHeader.
    cbn. rewrite Hw. cbn. rewrite Hbody. cbn. unfold http.Set_.
    split; [ by rewrite lookup_insert_ne, lookup_insert_eq | ].
    split; [ by rewrite lookup_insert_eq | ].
    exists (http.Body w +:+ msg).
    clear. induction (http.Body w) as [ | c b IH ]; [ done | ].
    change (String c (b +:+ msg +:+ newline)
            = String c ((b +:+ msg) +:+ newline)).
    by f_equal. }
  refine (conj _ (conj _ (conj _ (conj _ _)))).
  - unfold listarPessoas.
    destruct (sql.Query _ _ _) as [[rows | err] db'];
      [ | by apply Herror ].
    destruct (scanRows rows nil_slice); [ | by apply Herror ].
    by repeat split.
  - unfold obterPessoa.
    destruct (sql.QueryRow_Scan _ _ _) as [[[pid pnome] | err] db'];
      [ by repeat split | ].
    destruct (decide (err = ErrNoRows)); by apply Herror.
  - unfold adicionarPessoa.
    destruct (decide _) as [ Hct | Hct ]; [ by apply Herror | ].
    destruct (json.Decode _ _) as [ p | err ]; [ | by apply Herror ].
    destruct (sql.Exec _ _ _) as [[res | err] db']; [ | by apply Herror ].
    destruct (sql.LastInsertId res); [ by repeat split | by apply Herror ].
  - unfold removerPessoa.
    destruct (sql.Exec _ _ _) as [[res | err] db']; [ | by apply Herror ].
    by repeat split.
  - unfold modificarPessoa.
    destruct (decide _) as [ Hct | Hct ]; [ by apply Herror | ].
    destruct (strconv.Atoi _) as [ id | ]; [ | by apply Herror ].
    destruct (json.Decode _ _) as [ p | err ]; [ | by apply Herror ].
    destruct (sql.Exec _ _ _) as [[res | err] db']; [ | by apply Herror ].
    destruct (sql.RowsAffected res) as [ k | err ]; [ | by apply Herror ].
    destruct (decide (k = 0)); [ by apply Herror | by repeat split ].
Qed.

(** X7.  [adicionarPessoa] does not use the [id] of the body: two requests
    with the content type [application/json] whose bodies decode to the
    same name get the same response and leave the same storage, whatever
    ids the bodies carry. *)
Theorem adicionarPessoa_ignores_body_id {DB : Type} {C : sql.Conn DB}
    {D : json.Decoder} (r1 r2 : http.Request) (db : DB) (p1 p2 : Pessoa) :
  http.Get (http.ReqHeader r1) "Content-Type" = "application/json" →
  http.Get (http.ReqHeader r2) "Content-Type" = "application/json" →
  json.Decode (http.ReqBody r1) zeroPessoa = Ok p1 →
  json.Decode (http.ReqBody r2) zeroPessoa = Ok p2 →
  Nome p1 = Nome p2 →
  adicionarPessoa http.newResponse r1 db
  = adicionarPessoa http.newResponse r2 db.
Proof.
  intros Hct1 Hct2 Hdec1 Hdec2 Hnome. unfold adicionarPessoa.
  rewrite !decide_False by (by intros Hne).
  by rewrite Hdec1, Hdec2, Hnome.
Qed.

(** X7 at the bodies [{"id":99,"nome":"Bia"}] and [{"nome":"Bia"}]. *)
Lemma adicionarPessoa_ignores_body_id_example :
  adicionarPessoa http.newResponse
    (POST "application/json"
       (json.Marshal_Pessoa {| ID := 99; Nome := "Bia" |})) one_Ana
  = adicionarPessoa http.newResponse
      (POST "application/json" (nome_body "Bia")) one_Ana.
Proof.
  exact (adicionarPessoa_ignores_body_id (D := decoder.go_decoder)
           (POST "application/json"
              (json.Marshal_Pessoa {| ID := 99; Nome := "Bia" |}))
           (POST "application/json" (nome_body "Bia")) one_Ana
           {| ID := 99; Nome := "Bia" |} {| ID := 0; Nome := "Bia" |}
           eq_refl eq_refl eq_refl eq_refl eq_refl).
Defined.

(** ** Over the table in memory *)

(** The rows [SELECT id, nome FROM individuos] returns are the rows of the
    table, each once. *)
Lemma select_all_rows (db : mysql.Server) :
  (∀ id nome, (id, nome) ∈ mysql.select_all db
              ↔ mysql.individuos db !! id = Some nome)
  ∧ NoDup (mysql.select_all db).*1.
Proof.
  unfold mysql.select_all.
  pose proof (merge_sort_Permutation mysql.by_id
                (map_to_list (mysql.individuos db))) as Hperm.
  split.
  - intros id nome. rewrite Hperm. apply elem_of_map_to_list.
  - rewrite Hperm. apply NoDup_fst_map_to_list.
Qed.

Lemma Query_alive (db : mysql.Server) :
  mysql.alive db = true →
  sql.Query db "SELECT id, nome FROM individuos" []
  = (Ok (Ok <$> mysql.select_all db), db).
Proof.
  intros Halive. cbn. unfold mysql.Query. rewrite Halive. cbn [negb].
  by rewrite decide_True.
Qed.

(** What a successful [DELETE] did. *)
Lemma Exec_delete_Ok (db db' : mysql.Server) (s : string) (res : sql.Result) :
  sql.Exec db "DELETE FROM individuos WHERE id = ?" [sql.Text s]
  = (Ok res, db') →
  mysql.alive db = true
  ∧ (mysql.number_of_text s).2 = true
  ∧ mysql.individuos db'
    = delete (mysql.number_of_text s).1 (mysql.individuos db)
  ∧ mysql.AUTO_INCREMENT db' = mysql.AUTO_INCREMENT db
  ∧ mysql.alive db' = true.
Proof.
  cbn. unfold mysql.Exec. destruct (mysql.alive db) eqn:Halive; [ | done ].
  cbn [negb]. rewrite decide_False by done. rewrite decide_True by done.
  unfold mysql.delete_by_id.
  destruct (mysql.number_of_text s) as [v numeric].
  destruct numeric; [ | done ]. cbn [negb fst snd].
  destruct (mysql.individuos db !! v) eqn:Hrow.
  - intros [= <- <-]. done.
  - intros [= <- <-]. by rewrite delete_id.
Qed.

(** X8.  [GET /pessoas] on a server that can be reached answers 200 with
    the JSON array of the stored rows: every stored row and no other, each
    id once, in whatever order the server returns them ([null] when the
    table is empty), and leaves the table as it was. *)
Theorem listarPessoas_lists_table (r : http.Request) (db : mysql.Server) :
  mysql.alive db = true →
  let '(w, db') := listarPessoas http.newResponse r db in
  ∃ rows : list (Z * string),
    http.Status w = 200
    ∧ http.Body w
      = json.Marshal_slice
          (match rows with [] => None | _ => Some (pessoa_of <$> rows) end)
          +:+ newline
    ∧ (∀ id nome, (id, nome) ∈ rows
                  ↔ mysql.individuos db !! id = Some nome)
    ∧ NoDup rows.*1
    ∧ db' = db.
Proof.
  intros Halive. unfold listarPessoas. rewrite (Query_alive db Halive).
  destruct (select_all_rows db) as (Hrows & Hnodup).
  destruct (scanRows_app (mysql.select_all db) [] [] nil_slice eq_refl)
    as [Hnil Hcons].
  rewrite app_nil_r in Hnil, Hcons.
  destruct (mysql.select_all db) as [ | row rows ].
  - rewrite Hnil by done. by exists [].
  - rewrite Hcons by done. by exists (row :: rows).
Qed.

(** X8 on the table that holds [(1, "Ana")]. *)
Lemma listarPessoas_lists_table_example :
  let '(w, db') := listarPessoas http.newResponse (at_id "") one_Ana in
  ∃ rows : list (Z * string),
    http.Status w = 200
    ∧ http.Body w
      = json.Marshal_slice
          (match rows with [] => None | _ => Some (pessoa_of <$> rows) end)
          +:+ newline
    ∧ (∀ id nome, (id, nome) ∈ rows
                  ↔ mysql.individuos one_Ana !! id = Some nome)
    ∧ NoDup rows.*1
    ∧ db' = one_Ana.
Proof. exact (listarPessoas_lists_table (at_id "") one_Ana eq_refl). Defined.



(** X10.  Delete and then fetch: after [removerPessoa] answered 204, a
    [GET] with the same path text answers 404. *)
Theorem removerPessoa_then_obterPessoa (db db' : mysql.Server)
    (r r' : http.Request) (w : http.ResponseWriter) :
  removerPessoa http.newResponse r db = (w, db') →
  http.Status w = 204 →
  http.var r' "id" = http.var r "id" →
  let '(w', db'') := obterPessoa http.newResponse r' db' in
  http.Status w' = 404
  ∧ http.Body w' = "Pessoa não encontrada" +:+ newline
  ∧ db'' = db'.
Proof.
  unfold removerPessoa.
  destruct (sql.Exec _ _ _) as [[res | err] db1] eqn:Hexec;
    [ | by intros [= <- <-] ].
  apply Exec_delete_Ok in Hexec as (_ & _ & Hrows & _ & Halive).
  intros [= <- <-] _ Hvar. unfold obterPessoa. rewrite Hvar. cbn.
  unfold mysql.QueryRow_Scan. rewrite Halive. cbn [negb].
  rewrite decide_True by done. unfold mysql.select_by_id.
  by rewrite Hrows, lookup_delete_eq.
Qed.

(** X10 at [DELETE /pessoas/1] and then [GET /pessoas/1] on the table that
    holds [(1, "Ana")]. *)
Lemma removerPessoa_then_obterPessoa_example :
  let '(w', db'') :=
    obterPessoa http.newResponse (at_id "1")
      (removerPessoa http.newResponse (at_id "1") one_Ana).2 in
  http.Status w' = 404
  ∧ http.Body w' = "Pessoa não encontrada" +:+ newline
  ∧ db'' = (removerPessoa http.newResponse (at_id "1") one_Ana).2.
Proof.
  exact (removerPessoa_then_obterPessoa one_Ana _ (at_id "1") (at_id "1") _
           (surjective_pairing _) eq_refl eq_refl).
Defined.



(** X12.  [PUT /pessoas/{id}] with the name the row already has: the
    [UPDATE] changes no row, so the handler answers 404
    [Pessoa não encontrada] although the Person exists; the table stays as
    it was. *)
Theorem modificarPessoa_unchanged_name {D : json.Decoder} (r : http.Request)
    (db : mysql.Server) (id : Z) (p : Pessoa) :
  http.Get (http.ReqHeader r) "Content-Type" = "application/json" →
  strconv.Atoi (http.var r "id") = Some id →
  json.Decode (http.ReqBody r) zeroPessoa = Ok p →
  mysql.alive db = true →
  mysql.CHAR_LENGTH (Nome p) ≤ 255 →
  mysql.individuos db !! id = Some (Nome p) →
  let '(w, db') := modificarPessoa http.newResponse r db in
  http.Status w = 404
  ∧ http.Body w = "Pessoa não encontrada" +:+ newline
  ∧ db' = db.
Proof.
  intros Hct Hid Hdec Halive Hlen Hrow. unfold modificarPessoa.
  rewrite decide_False by (by intros Hne). rewrite Hid, Hdec. cbn.
  unfold mysql.Exec. rewrite Halive. cbn [negb].
  rewrite decide_True by done. unfold mysql.update. rewrite Hrow.
  rewrite (proj2 (Z.ltb_ge _ _)) by done. by rewrite decide_True.
Qed.

(** X12 at [PUT /pessoas/1] with [{"nome":"Ana"}] on the table that holds
    [(1, "Ana")]. *)
Lemma modificarPessoa_unchanged_name_Ana :
  let '(w, db') :=
    modificarPessoa http.newResponse
      (PUT "1" "application/json" (nome_body "Ana")) one_Ana in
  http.Status w = 404
  ∧ http.Body w = "Pessoa não encontrada" +:+ newline
  ∧ db' = one_Ana.
Proof.
  refine (modificarPessoa_unchanged_name (D := decoder.go_decoder)
            (PUT "1" "application/json" (nome_body "Ana")) one_Ana 1
            {| ID := 0; Nome := "Ana" |} eq_refl eq_refl eq_refl eq_refl
            _ eq_refl).
  vm_compute. discriminate.
Defined.

(** X13.  [PUT /pessoas/{id}] for an id that is not stored answers 404 and
    stores nothing: an update never creates a row. *)
Theorem modificarPessoa_absent_id {D : json.Decoder} (r : http.Request)
    (db : mysql.Server) (id : Z) (p : Pessoa) :
  http.Get (http.ReqHeader r) "Content-Type" = "application/json" →
  strconv.Atoi (http.var r "id") = Some id →
  json.Decode (http.ReqBody r) zeroPessoa = Ok p →
  mysql.alive db = true →
  mysql.individuos db !! id = None →
  let '(w, db') := modificarPessoa http.newResponse r db in
  http.Status w = 404
  ∧ http.Body w = "Pessoa não encontrada" +:+ newline
  ∧ db' = db.
Proof.
  intros Hct Hid Hdec Halive Hrow. unfold modificarPessoa.
  rewrite decide_False by (by intros Hne). rewrite Hid, Hdec. cbn.
  unfold mysql.Exec. rewrite Halive. cbn [negb].
  rewrite decide_True by done. unfold mysql.update. by rewrite Hrow.
Qed.

(** X13 at [PUT /pessoas/7] on the table that holds [(1, "Ana")]. *)
Lemma modificarPessoa_absent_id_example :
  let '(w, db') :=
    modificarPessoa http.newResponse
      (PUT "7" "application/json" (nome_body "Bia")) one_Ana in
  http.Status w = 404
  ∧ http.Body w = "Pessoa não encontrada" +:+ newline
  ∧ db' = one_Ana.
Proof.
  exact (modificarPessoa_absent_id (D := decoder.go_decoder)
           (PUT "7" "application/json" (nome_body "Bia")) one_Ana 7
           {| ID := 0; Nome := "Bia" |} eq_refl eq_refl eq_refl eq_refl
           eq_refl).
Defined.

(** X14.  A [PUT /pessoas/{id}] answered 200 has changed the row of the
    path id, which existed before, and nothing else: every other row, the
    set of stored ids and the id counter are as they were. *)
Theorem modificarPessoa_only_its_row {D : json.Decoder} (r : http.Request)
    (db db' : mysql.Server) (w : http.ResponseWriter) :
  modificarPessoa http.newResponse r db = (w, db') →
  http.Status w = 200 →
  ∃ id : Z,
    strconv.Atoi (http.var r "id") = Some id
    ∧ is_Some (mysql.individuos db !! id)
    ∧ (∀ id' : Z, id' ≠ id →
                  mysql.individuos db' !! id' = mysql.individuos db !! id')
    ∧ dom (mysql.individuos db') = dom (mysql.individuos db)
    ∧ mysql.AUTO_INCREMENT db' = mysql.AUTO_INCREMENT db.
Proof.
  intros Hrun Hok. pose proof (modificarPessoa_200 r db) as H200.
  rewrite Hrun in H200.
  destruct (H200 Hok)
    as (id & p & res & n & _ & Hid & _ & Hexec & Hrows & Hn & _).
  cbn [fst snd] in Hexec.
  assert (mysql.AUTO_INCREMENT db' = mysql.AUTO_INCREMENT db) as Hai.
  { revert Hexec. cbn. unfold mysql.Exec. destruct (negb _); [ done | ].
    rewrite decide_True by done. unfold mysql.update.
    destruct (mysql.individuos db !! id); [ | by intros [= _ <-] ].
    destruct (255 <? _); [ done | ].
    destruct (decide _); by intros [= _ <-]. }
  destruct (Exec_update_Ok _ _ _ _ _ _ Hexec Hrows Hn)
    as (Hsome & Hrow & _).
  exists id. refine (conj Hid (conj Hsome (conj _ (conj _ Hai)))).
  - intros id' Hne. by rewrite Hrow, lookup_insert_ne.
  - rewrite Hrow, dom_insert_L. apply elem_of_dom in Hsome.
    apply subseteq_union_1_L. by apply singleton_subseteq_l.
Qed.

(** X14 at [PUT /pessoas/1] with [{"nome":"Bia"}] on the table that holds
    [(1, "Ana")]. *)
Lemma modificarPessoa_only_its_row_example :
  let db' :=
    (modificarPessoa http.newResponse
       (PUT "1" "application/json" (nome_body "Bia")) one_Ana).2 in
  ∃ id : Z,
    strconv.Atoi "1" = Some id
    ∧ is_Some (mysql.individuos one_Ana !! id)
    ∧ (∀ id' : Z, id' ≠ id →
                  mysql.individuos db' !! id'
                  = mysql.individuos one_Ana !! id')
    ∧ dom (mysql.individuos db') = dom (mysql.individuos one_Ana)
    ∧ mysql.AUTO_INCREMENT db' = mysql.AUTO_INCREMENT one_Ana.
Proof.
  exact (modificarPessoa_only_its_row (D := decoder.go_decoder)
           (PUT "1" "application/json" (nome_body "Bia")) one_Ana _ _
           (surjective_pairing _) eq_refl).
Defined.

(** A statement that fails leaves the table as it was. *)
Lemma Exec_Err_unchanged (db db' : mysql.Server) (q : string)
    (args : list sql.arg) (err : error) :
  mysql.Exec db q args = (Err err, db') → db' = db.
Proof.
  unfold mysql.Exec. destruct (negb _); [ by intros [= _ <-] | ].
  destruct args as [ | [ a | z ] [ | [ a' | z' ] [ | ? ? ] ] ];
    try (by intros [= _ <-]).
  - destruct (decide _).
    + unfold mysql.insert. destruct (255 <? _); [ by intros [= _ <-] | ].
      by destruct (mysql.individuos db !! _); intros [= _ <-].
    + destruct (decide _); [ | by intros [= _ <-] ].
      unfold mysql.delete_by_id.
      destruct (mysql.number_of_text a) as [v numeric].
      destruct (negb numeric); [ by intros [= _ <-] | ].
      by destruct (mysql.individuos db !! v).
  - destruct (decide _); [ | by intros [= _ <-] ].
    unfold mysql.update.
    destruct (mysql.individuos db !! z'); [ | done ].
    destruct (255 <? _); [ by intros [= _ <-] | ].
    by destruct (decide _).
Qed.

(** An [UPDATE] that reports no row affected has changed nothing. *)
Lemma Exec_update_zero (db db' : mysql.Server) (nome : string) (id : Z)
    (res : sql.Result) :
  sql.Exec db "UPDATE individuos SET nome = ? WHERE id = ?"
    [sql.Text nome; sql.Int id] = (Ok res, db') →
  sql.RowsAffected res = Ok 0 → db' = db.
Proof.
  cbn. unfold mysql.Exec. destruct (negb _); [ done | ].
  rewrite decide_True by done. unfold mysql.update.
  destruct (mysql.individuos db !! id); [ | by intros [= _ <-] ].
  destruct (255 <? _); [ done | ].
  destruct (decide _); [ by intros [= _ <-] | ].
  by intros [= <- _].
Qed.

(** X15.  An [adicionarPessoa] answered 200 has added one row, under an id
    that was not in use, and has left every other row as it was. *)
Theorem adicionarPessoa_only_adds {D : json.Decoder} (r : http.Request)
    (db db' : mysql.Server) (w : http.ResponseWriter) :
  adicionarPessoa http.newResponse r db = (w, db') →
  http.Status w = 200 →
  let id := mysql.AUTO_INCREMENT db in
  mysql.individuos db !! id = None
  ∧ is_Some (mysql.individuos db' !! id)
  ∧ (∀ id' : Z, id' ≠ id →
                mysql.individuos db' !! id' = mysql.individuos db !! id')
  ∧ size (mysql.individuos db') = S (size (mysql.individuos db)).
Proof.
  unfold adicionarPessoa.
  destruct (decide _) as [ Hct | Hct ]; [ by intros [= <- <-] | ].
  destruct (json.Decode _ _) as [ p | err ]; [ | by intros [= <- <-] ].
  destruct (sql.Exec _ _ _) as [[res | err] db1] eqn:Hexec;
    [ | by intros [= <- <-] ].
  apply Exec_insert_Ok in Hexec as (_ & _ & Hfree & -> & Hrows & _).
  cbn [sql.LastInsertId mysql.executed]. intros [= <- <-] _. cbn zeta.
  refine (conj Hfree (conj _ (conj _ _))).
  - rewrite Hrows, lookup_insert_eq. by eexists.
  - intros id' Hne. by rewrite Hrows, lookup_insert_ne.
  - rewrite Hrows. by apply map_size_insert_None.
Qed.

(** X15 at [POST /pessoas] with [{"nome":"Bia"}] on the table that holds
    [(1, "Ana")]. *)
Lemma adicionarPessoa_only_adds_example :
  let db' :=
    (adicionarPessoa http.newResponse
       (POST "application/json" (nome_body "Bia")) one_Ana).2 in
  let id := mysql.AUTO_INCREMENT one_Ana in
  mysql.individuos one_Ana !! id = None
  ∧ is_Some (mysql.individuos db' !! id)
  ∧ (∀ id' : Z, id' ≠ id →
                mysql.individuos db' !! id'
                = mysql.individuos one_Ana !! id')
  ∧ size (mysql.individuos db') = S (size (mysql.individuos one_Ana)).
Proof.
  exact (adicionarPessoa_only_adds (D := decoder.go_decoder)
           (POST "application/json" (nome_body "Bia")) one_Ana _ _
           (surjective_pairing _) eq_refl).
Defined.

(** X16.  Only a success writes: [listarPessoas] and [obterPessoa] always
    leave the table as it was, and so do [adicionarPessoa],
    [removerPessoa] and [modificarPessoa] whenever they answer anything but
    their success status. *)
Theorem failed_request_leaves_table {D : json.Decoder} (r : http.Request)
    (db : mysql.Server) :
  (listarPessoas http.newResponse r db).2 = db
  ∧ (obterPessoa http.newResponse r db).2 = db
  ∧ (http.Status (adicionarPessoa http.newResponse r db).1 ≠ 200 →
     (adicionarPessoa http.newResponse r db).2 = db)
  ∧ (http.Status (removerPessoa http.newResponse r db).1 ≠ 204 →
     (removerPessoa http.newResponse r db).2 = db)
  ∧ (http.Status (modificarPessoa http.newResponse r db).1 ≠ 200 →
     (modificarPessoa http.newResponse r db).2 = db).
Proof.
  refine (conj _ (conj _ (conj _ (conj _ _)))).
  - unfold listarPessoas. cbn. unfold mysql.Query.
    destruct (negb _); [ done | ]. rewrite decide_True by done.
    by destruct (scanRows _ _).
  - unfold obterPessoa. cbn. unfold mysql.QueryRow_Scan.
    destruct (negb _); [ done | ]. rewrite decide_True by done.
    destruct (mysql.select_by_id _ _) as [[pid pnome] | err]; [ done | ].
    by destruct (decide _).
  - unfold adicionarPessoa.
    destruct (decide _) as [ Hct | Hct ]; [ done | ].
    destruct (json.Decode _ _) as [ p | err ]; [ | done ].
    destruct (sql.Exec _ _ _) as [[res | err] db1] eqn:Hexec.
    + apply Exec_insert_Ok in Hexec as (_ & _ & _ & -> & _ & _). done.
    + intros _. exact (Exec_Err_unchanged _ _ _ _ _ Hexec).
  - unfold removerPessoa.
    destruct (sql.Exec _ _ _) as [[res | err] db1] eqn:Hexec; [ done | ].
    intros _. exact (Exec_Err_unchanged _ _ _ _ _ Hexec).
  - unfold modificarPessoa.
    destruct (decide _) as [ Hct | Hct ]; [ done | ].
    destruct (strconv.Atoi _) as [ id | ]; [ | done ].
    destruct (json.Decode _ _) as [ p | err ]; [ | done ].
    destruct (sql.Exec _ _ _) as [[res | err] db1] eqn:Hexec.
    + destruct (sql.RowsAffected res) as [ k | err ] eqn:Hk.
      * destruct (decide (k = 0)) as [ -> | Hk0 ]; [ | done ].
        intros _. exact (Exec_update_zero _ _ _ _ _ Hexec Hk).
      * revert Hexec Hk. cbn. unfold mysql.Exec.
        destruct (negb _); [ done | ]. rewrite decide_True by done.
        unfold mysql.update.
        destruct (mysql.individuos db !! id); [ | by intros [= <- _] ].
        destruct (255 <? _); [ done | ].
        destruct (decide _); by intros [= <- _].
    + intros _. exact (Exec_Err_unchanged _ _ _ _ _ Hexec).
Qed.



Lemma wf_one_Ana : wf one_Ana.
Proof.
  split; [ done | ]. intros id nome. cbn.
  by intros [<- _]%lookup_singleton_Some.
Qed.

(** X18 (the lemma [handlers_preserve_wf]) at [PUT /pessoas/1] on the
    table that holds [(1, "Ana")]. *)
Lemma handlers_preserve_wf_example :
  let r := PUT "1" "application/json" (nome_body "Bia") in
  wf (listarPessoas http.newResponse r one_Ana).2
  ∧ wf (obterPessoa http.newResponse r one_Ana).2
  ∧ wf (adicionarPessoa http.newResponse r one_Ana).2
  ∧ wf (removerPessoa http.newResponse r one_Ana).2
  ∧ wf (modificarPessoa http.newResponse r one_Ana).2.
Proof.
  exact (handlers_preserve_wf (D := decoder.go_decoder)
           (PUT "1" "application/json" (nome_body "Bia")) one_Ana
           wf_one_Ana).
Defined.


(** * The router of [main] *)

Section Routing.

Lemma strip_prefix_Some (l s rest : string) :
  mux.strip_prefix l s = Some rest → s = l +:+ rest.
Proof.
  revert s. induction l as [ | a l IH ]; intros s.
  - cbn. by intros [= ->].
  - destruct s as [ | b s ]; cbn [String.append mux.strip_prefix];
      [ done | ].
    destruct (decide (a = b)) as [ -> | ]; [ | done ].
    intros Hs. rewrite (IH _ Hs). reflexivity.
Qed.

Lemma strip_prefix_app (l s : string) :
  mux.strip_prefix l (l +:+ s) = Some s.
Proof.
  induction l as [ | a l IH ]; [ done | ].
  change (String a l +:+ s) with (String a (l +:+ s)).
  cbn [mux.strip_prefix]. by rewrite decide_True.
Qed.

Lemma var_matches_full (s : string) :
  s ≠ "" → no_slash s = true →
  ∃ more, mux.var_matches s = (s, "") :: more.
Proof.
  induction s as [ | c t IH ]; [ done | ]. intros _. cbn.
  intros [Hc Ht]%andb_true_iff. apply negb_true_iff in Hc. rewrite Hc.
  destruct t as [ | c' t ].
  - cbn. by eexists.
  - destruct (IH ltac:(done) Ht) as [more ->]. cbn. by eexists.
Qed.

Lemma var_matches_elem (s v rest : string) :
  (v, rest) ∈ mux.var_matches s →
  s = v +:+ rest ∧ v ≠ "" ∧ no_slash v = true.
Proof.
  revert v rest. induction s as [ | c t IH ]; intros v rest; cbn.
  - by intros ?%elem_of_nil.
  - destruct (gopath.is_slash c) eqn:Hc; [ by intros ?%elem_of_nil | ].
    intros [Hin | Hin]%elem_of_app.
    + apply list_elem_of_fmap in Hin as ([v' rest'] & [= -> ->] & Hin).
      destruct (IH _ _ Hin) as (-> & _ & Hv).
      cbn. by rewrite Hc, Hv.
    + apply list_elem_of_singleton in Hin as [= -> ->]. cbn. by rewrite Hc.
Qed.

Lemma first_match_Some {A B : Type} (f : A → option B) (l : list A) (y : B) :
  mux.first_match f l = Some y → ∃ x, x ∈ l ∧ f x = Some y.
Proof.
  induction l as [ | x l IH ]; cbn; [ done | ].
  destruct (f x) as [ y' | ] eqn:Hx.
  - intros [= ->]. exists x. split; [ apply list_elem_of_here | done ].
  - intros Hy. destruct (IH Hy) as (x' & Hin & Hfx).
    exists x'. split; [ by apply list_elem_of_further | done ].
Qed.

Lemma append_nil_r (s : string) : s +:+ "" = s.
Proof.
  induction s as [ | c s IH ]; [ done | ].
  change (String c (s +:+ "") = String c s). by f_equal.
Qed.

(** The template [/pessoas/{id}] matches exactly the paths [/pessoas/]
    followed by a non-empty text without slash, which becomes [id]. *)
Lemma match_pessoas_id (seg : string) :
  seg ≠ "" → no_slash seg = true →
  mux.match_pieces [mux.Lit "/pessoas/"; mux.Var "id"] ("/pessoas/" +:+ seg)
  = Some [("id", seg)].
Proof.
  intros Hne Hseg. cbn [mux.match_pieces].
  rewrite strip_prefix_app.
  destruct (var_matches_full seg Hne Hseg) as [more ->]. done.
Qed.

Lemma match_pessoas_id_inv (p : string) (vars : list (string * string)) :
  mux.match_pieces [mux.Lit "/pessoas/"; mux.Var "id"] p = Some vars →
  ∃ seg, p = "/pessoas/" +:+ seg ∧ seg ≠ "" ∧ no_slash seg = true.
Proof.
  cbn [mux.match_pieces].
  destruct (mux.strip_prefix "/pessoas/" p) as [ rest | ] eqn:Hp; [ | done ].
  apply strip_prefix_Some in Hp as ->.
  intros ([v rest'] & Hin & Hm)%first_match_Some.
  apply var_matches_elem in Hin as (-> & Hv & Hslash).
  cbn in Hm. destruct (decide (rest' = "")) as [ -> | ]; [ | done ].
  exists v. by rewrite append_nil_r.
Qed.

Lemma match_literal (l p : string) :
  mux.match_pieces [mux.Lit l] p
  = if decide (p = l) then Some [] else None.
Proof.
  cbn. destruct (mux.strip_prefix l p) as [ rest | ] eqn:Hp.
  - apply strip_prefix_Some in Hp as ->.
    destruct (decide (rest = "")) as [ -> | Hrest ].
    + by rewrite append_nil_r, decide_True.
    + rewrite decide_False; [ done | ]. intros Heq. apply Hrest.
      clear -Heq. induction l as [ | a l IH ]; cbn in Heq; [ done | ].
      injection Heq as Heq. by apply IH.
  - rewrite decide_False; [ done | ]. intros ->.
    pose proof (strip_prefix_app l "") as Hl.
    rewrite append_nil_r in Hl. congruence.
Qed.

End Routing.

Section CleanPaths.

Lemma elements_cons (s : string) : ∃ e es, gopath.elements s = e :: es.
Proof.
  induction s as [ | c t (e & es & IH) ]; simpl; [ by eexists _, _ | ].
  destruct (gopath.is_slash c); [ by eexists _, _ | ].
  rewrite IH. by eexists _, _.
Qed.

Lemma elements_app_no_slash (a t e : string) (es : list string) :
  no_slash a = true → gopath.elements t = e :: es →
  gopath.elements (a +:+ t) = (a +:+ e) :: es.
Proof.
  intros Ha Ht. induction a as [ | c a IH ]; [ done | ].
  simpl in Ha. apply andb_true_iff in Ha as [Hc Ha].
  apply negb_true_iff in Hc.
  change (String c a +:+ t) with (String c (a +:+ t)).
  change (String c a +:+ e) with (String c (a +:+ e)).
  simpl. by rewrite Hc, (IH Ha).
Qed.

Lemma elements_no_slash (s : string) :
  no_slash s = true → gopath.elements s = [s].
Proof.
  intros Hs. pose proof (elements_app_no_slash s "" "" [] Hs eq_refl) as He.
  by rewrite !append_nil_r in He.
Qed.

Lemma last_byte_app (a t : string) :
  t ≠ "" → mux.last_byte (a +:+ t) = mux.last_byte t.
Proof.
  intros Ht. induction a as [ | c a IH ]; [ done | ].
  change (String c a +:+ t) with (String c (a +:+ t)).
  simpl. rewrite IH. destruct (a +:+ t) eqn:Hat; [ | done ].
  destruct a; [ by subst | done ].
Qed.

Lemma last_byte_no_slash (s : string) :
  s ≠ "" → no_slash s = true →
  ∃ l, mux.last_byte s = Some l ∧ gopath.is_slash l = false.
Proof.
  induction s as [ | c t IH ]; [ done | ]. intros _. simpl.
  intros [Hc Ht]%andb_true_iff. apply negb_true_iff in Hc.
  destruct t as [ | c' t ]; [ by exists c | ].
  by apply IH.
Qed.

(** A path [/pessoas/<id>] whose id is a plain name is already clean. *)
Lemma cleanPath_pessoas_id (seg : string) :
  seg ≠ "" → no_slash seg = true → seg ≠ "." → seg ≠ ".." →
  mux.cleanPath ("/pessoas/" +:+ seg) = "/pessoas/" +:+ seg.
Proof.
  intros Hne Hseg Hdot Hdotdot.
  assert (gopath.elements ("/pessoas/" +:+ seg) = [""; "pessoas"; seg])
    as Helems.
  { change ("/pessoas/" +:+ seg) with ("/" +:+ "pessoas" +:+ "/" +:+ seg).
    change (gopath.elements ("/" +:+ "pessoas" +:+ "/" +:+ seg))
      with ("" :: gopath.elements ("pessoas" +:+ "/" +:+ seg)).
    rewrite (elements_app_no_slash "pessoas" ("/" +:+ seg) "" [seg]);
      [ done | done | ].
    change (gopath.elements ("/" +:+ seg)) with ("" :: gopath.elements seg).
    by rewrite elements_no_slash. }
  assert (gopath.Clean ("/pessoas/" +:+ seg) = "/pessoas/" +:+ seg) as Hclean.
  { change ("/pessoas/" +:+ seg) with (String "/" ("pessoas/" +:+ seg)) at 1.
    unfold gopath.Clean.
    change (String "/" ("pessoas/" +:+ seg)) with ("/pessoas/" +:+ seg).
    rewrite Helems.
    change (gopath.is_slash "/") with true. cbv iota.
    cbn [foldl]. unfold gopath.clean_step at 3.
    rewrite decide_True by (by left).
    unfold gopath.clean_step at 2.
    rewrite decide_False by (by intros [ | ]).
    rewrite decide_False by done.
    unfold gopath.clean_step.
    rewrite decide_False by (by intros [ | ]).
    rewrite decide_False by done. reflexivity. }
  change ("/pessoas/" +:+ seg) with (String "/" ("pessoas/" +:+ seg)) at 1.
  unfold mux.cleanPath.
  change (gopath.is_slash "/") with true. cbv iota.
  change (String "/" ("pessoas/" +:+ seg)) with ("/pessoas/" +:+ seg).
  rewrite Hclean, (last_byte_app "/pessoas/" seg Hne).
  destruct (last_byte_no_slash seg Hne Hseg) as (l & -> & ->). done.
Qed.

End CleanPaths.

Section Serving.

Context {DB : Type} {C : sql.Conn DB} {D : json.Decoder}.

Implicit Types (w : http.ResponseWriter) (req : mux.Incoming) (db : DB).

Lemma method_matches_Methods (rt : mux.Route (DB := DB)) (k m : string) :
  mux.method_matches (mux.Methods rt [k]) m = bool_decide (m = k).
Proof.
  unfold mux.method_matches. cbn. apply bool_decide_ext.
  by rewrite list_elem_of_singleton.
Qed.

(** What [Router.Match] finds in the routes of [main]. *)
Lemma Match_routes req :
  mux.Match routes req false
  = if decide (mux.Path req = "/")
    then mux.Matched (λ w r db, (bemVindo w r, db)) ∅
    else if decide (mux.Path req = "/pessoas") then
      if decide (mux.Method req = "GET") then mux.Matched listarPessoas ∅
      else if decide (mux.Method req = "POST")
      then mux.Matched adicionarPessoa ∅
      else mux.ErrMethodMismatch
    else
      match mux.match_pieces [mux.Lit "/pessoas/"; mux.Var "id"]
              (mux.Path req) with
      | Some vars =>
          if decide (mux.Method req = "GET")
          then mux.Matched obterPessoa (list_to_map vars)
          else if decide (mux.Method req = "DELETE")
          then mux.Matched removerPessoa (list_to_map vars)
          else if decide (mux.Method req = "PUT")
          then mux.Matched modificarPessoa (list_to_map vars)
          else mux.ErrMethodMismatch
      | None => mux.ErrNotFound
      end.
Proof.
  unfold routes.
  cbn [mux.Match mux.template mux.methods mux.handler mux.HandleFunc
       mux.Methods].
  rewrite !match_literal, !method_matches_Methods.
  change (mux.method_matches (mux.HandleFunc ?t ?h) ?m) with true.
  destruct (decide (mux.Path req = "/")) as [ Hroot | Hroot ]; [ done | ].
  destruct (decide (mux.Path req = "/pessoas")) as [ Hp | Hp ].
  - assert (mux.match_pieces [mux.Lit "/pessoas/"; mux.Var "id"]
              (mux.Path req) = None) as -> by (by rewrite Hp).
    destruct (decide (mux.Method req = "GET")) as [ Hget | Hget ];
      [ by rewrite bool_decide_eq_true_2 | ].
    rewrite bool_decide_eq_false_2 by done.
    destruct (decide (mux.Method req = "POST")) as [ Hpost | Hpost ];
      [ by rewrite bool_decide_eq_true_2 | ].
    by rewrite bool_decide_eq_false_2.
  - destruct (mux.match_pieces [mux.Lit "/pessoas/"; mux.Var "id"]
                (mux.Path req)) as [ vars | ]; [ | done ].
    destruct (decide (mux.Method req = "GET")) as [ Hget | Hget ];
      [ by rewrite bool_decide_eq_true_2 | ].
    rewrite bool_decide_eq_false_2 by done.
    destruct (decide (mux.Method req = "DELETE")) as [ Hdel | Hdel ];
      [ by rewrite bool_decide_eq_true_2 | ].
    rewrite bool_decide_eq_false_2 by done.
    destruct (decide (mux.Method req = "PUT")) as [ Hput | Hput ];
      [ by rewrite bool_decide_eq_true_2 | ].
    by rewrite bool_decide_eq_false_2.
Qed.

(** X20.  The routes of [/pessoas/{id}]: for every id text without slash
    (other than the empty text, [.] and [..]) the router calls
    [obterPessoa] on GET, [removerPessoa] on DELETE and [modificarPessoa]
    on PUT, with the text as the variable [id], unchecked; any other
    method gets 405 without a handler being called. *)
Theorem serve_pessoas_id w req db (seg : string) :
  mux.Path req = "/pessoas/" +:+ seg →
  seg ≠ "" → no_slash seg = true → seg ≠ "." → seg ≠ ".." →
  serve w req db
  = if decide (mux.Method req = "GET")
    then obterPessoa w (routed req {[ "id" := seg ]}) db
    else if decide (mux.Method req = "DELETE")
    then removerPessoa w (routed req {[ "id" := seg ]}) db
    else if decide (mux.Method req = "PUT")
    then modificarPessoa w (routed req {[ "id" := seg ]}) db
    else (http.WriteHeader w mux.StatusMethodNotAllowed, db).
Proof.
  intros Hpath Hne Hseg Hdot Hdotdot. unfold serve, mux.ServeHTTP.
  rewrite Match_routes, Hpath, cleanPath_pessoas_id by done.
  rewrite decide_False by (by intros Hneq).
  rewrite !(decide_False (P := "/pessoas/" +:+ seg = _)) by done.
  rewrite match_pessoas_id by done.
  destruct (decide (mux.Method req = "GET")); [ done | ].
  destruct (decide (mux.Method req = "DELETE")); [ done | ].
  by destruct (decide (mux.Method req = "PUT")).
Qed.

(** X21.  The routes of [/pessoas]: GET calls [listarPessoas], POST calls
    [adicionarPessoa], and any other method gets 405 without a handler
    being called. *)
Theorem serve_pessoas w req db :
  mux.Path req = "/pessoas" →
  serve w req db
  = if decide (mux.Method req = "GET")
    then listarPessoas w (routed req ∅) db
    else if decide (mux.Method req = "POST")
    then adicionarPessoa w (routed req ∅) db
    else (http.WriteHeader w mux.StatusMethodNotAllowed, db).
Proof.
  intros Hpath. unfold serve, mux.ServeHTTP.
  rewrite Match_routes, Hpath.
  change (mux.cleanPath "/pessoas") with "/pessoas".
  rewrite decide_False by (by intros Hneq).
  rewrite decide_False by done. rewrite decide_True by done.
  destruct (decide (mux.Method req = "GET")); [ done | ].
  by destruct (decide (mux.Method req = "POST")).
Qed.

(** X22.  The route [/] has no method matcher: whatever the method, the
    header and the body of the request, the status is 200 and the storage
    is not used; for every method but [HEAD], to which [net/http] sends no
    body, the body of the answer is the greeting. *)
Theorem serve_root req db :
  mux.Path req = "/" →
  let '(w, db') := serve http.newResponse req db in
  http.Status w = 200
  ∧ (mux.Method req ≠ "HEAD" → http.Body w = "Bem-vindo ao nosso serviço!")
  ∧ db' = db.
Proof.
  intros Hpath. unfold serve, mux.ServeHTTP.
  rewrite Match_routes, Hpath.
  change (mux.cleanPath "/") with "/".
  rewrite decide_False by (by intros Hneq).
  by rewrite decide_True.
Qed.

(** X23.  A clean path that is neither [/] nor [/pessoas] nor [/pessoas/]
    followed by one name gets the status 404 whatever the method, and the
    storage is not used; for every method but [HEAD], to which [net/http]
    sends no body, the body of the answer is [404 page not found]. *)
Theorem serve_not_found req db :
  mux.cleanPath (mux.Path req) = mux.Path req →
  mux.Path req ≠ "/" → mux.Path req ≠ "/pessoas" →
  (∀ seg : string, mux.Path req = "/pessoas/" +:+ seg →
                   seg = "" ∨ no_slash seg = false) →
  let '(w, db') := serve http.newResponse req db in
  http.Status w = 404
  ∧ (mux.Method req ≠ "HEAD" →
     http.Body w = "404 page not found" +:+ newline)
  ∧ db' = db.
Proof.
  intros Hclean Hroot Hp Hid. unfold serve, mux.ServeHTTP.
  rewrite Match_routes, Hclean.
  rewrite decide_False by (by intros Hneq).
  rewrite !decide_False by done.
  destruct (mux.match_pieces _ _) as [ vars | ] eqn:Hm; [ | done ].
  apply match_pessoas_id_inv in Hm as (seg & Hseg & Hne & Hslash).
  destruct (Hid seg Hseg) as [ -> | Hno ]; [ done | ].
  by rewrite Hno in Hslash.
Qed.

End Serving.

(** X20 at [DELETE /pessoas/abc]. *)
Lemma serve_pessoas_id_abc :
  serve http.newResponse (incoming "DELETE" "/pessoas/abc" "" "") one_Ana
  = removerPessoa http.newResponse
      (routed (incoming "DELETE" "/pessoas/abc" "" "") {[ "id" := "abc" ]})
      one_Ana.
Proof.
  exact (serve_pessoas_id (D := decoder.go_decoder) http.newResponse
           (incoming "DELETE" "/pessoas/abc" "" "") one_Ana "abc" eq_refl
           ltac:(discriminate) eq_refl ltac:(discriminate)
           ltac:(discriminate)).
Defined.

(** X21 at [PUT /pessoas]. *)
Lemma serve_pessoas_PUT :
  serve http.newResponse
    (incoming "PUT" "/pessoas" "application/json" (nome_body "Bia")) one_Ana
  = (http.WriteHeader http.newResponse mux.StatusMethodNotAllowed, one_Ana).
Proof.
  exact (serve_pessoas (D := decoder.go_decoder) http.newResponse
           (incoming "PUT" "/pessoas" "application/json" (nome_body "Bia"))
           one_Ana eq_refl).
Defined.

(** X22 at [DELETE /]. *)
Lemma serve_root_DELETE :
  let '(w, db') :=
    serve http.newResponse (incoming "DELETE" "/" "" "") one_Ana in
  http.Status w = 200
  ∧ http.Body w = "Bem-vindo ao nosso serviço!"
  ∧ db' = one_Ana.
Proof.
  generalize (serve_root (D := decoder.go_decoder)
                (incoming "DELETE" "/" "" "") one_Ana eq_refl).
  destruct (serve _ _ _) as [w db']. intros (Hstatus & Hbody & Hdb).
  split; [ exact Hstatus | split; [ apply Hbody; discriminate | exact Hdb ] ].
Defined.

(** X23 at [GET /pessoas/], the list path with a trailing slash. *)
Lemma serve_not_found_trailing_slash :
  let '(w, db') :=
    serve http.newResponse (incoming "GET" "/pessoas/" "" "") one_Ana in
  http.Status w = 404
  ∧ http.Body w = "404 page not found" +:+ newline
  ∧ db' = one_Ana.
Proof.
  assert (∀ seg : string,
            mux.Path (incoming "GET" "/pessoas/" "" "") = "/pessoas/" +:+ seg →
            seg = "" ∨ no_slash seg = false) as Hseg.
  { intros seg Hseg. left. by injection Hseg. }
  generalize (serve_not_found (D := decoder.go_decoder)
                (incoming "GET" "/pessoas/" "" "") one_Ana eq_refl
                ltac:(discriminate) ltac:(discriminate) Hseg).
  destruct (serve _ _ _) as [w db']. intros (Hstatus & Hbody & Hdb).
  split; [ exact Hstatus | split; [ apply Hbody; discriminate | exact Hdb ] ].
Defined.

Section NoDoubleSlash.

Lemma ends_slash_cons (c : ascii) (s : string) :
  ends_slash (String c s) = if decide (s = "") then gopath.is_slash c
                            else ends_slash s.
Proof. by destruct s. Qed.

Lemma double_slash_app (a b : string) :
  double_slash (a +:+ b)
  = double_slash a || double_slash b || (ends_slash a && starts_slash b).
Proof.
  induction a as [ | c a IH ]; [ simpl; by rewrite orb_false_r | ].
  change (String c a +:+ b) with (String c (a +:+ b)).
  destruct a as [ | d a ].
  - change ("" +:+ b) with b.
    destruct b as [ | e b ]; [ simpl; by rewrite andb_false_r | ].
    simpl. unfold ends_slash. simpl. apply orb_comm.
  - change (String d a +:+ b) with (String d (a +:+ b)) in *.
    change (double_slash (String c (String d (a +:+ b))))
      with ((gopath.is_slash c && gopath.is_slash d)
            || double_slash (String d (a +:+ b))).
    rewrite IH.
    change (double_slash (String c (String d a)))
      with ((gopath.is_slash c && gopath.is_slash d)
            || double_slash (String d a)).
    change (ends_slash (String c (String d a)))
      with (ends_slash (String d a)).
    by destruct (gopath.is_slash c && gopath.is_slash d),
      (double_slash (String d a)).
Qed.

Lemma ends_slash_app (a b : string) :
  b ≠ "" → ends_slash (a +:+ b) = ends_slash b.
Proof. intros Hb. unfold ends_slash. by rewrite last_byte_app. Qed.

Lemma no_slash_plain (e : string) :
  no_slash e = true →
  double_slash e = false ∧ starts_slash e = false ∧ ends_slash e = false.
Proof.
  induction e as [ | c e IH ]; [ done | ]. simpl.
  intros [Hc He]%andb_true_iff. apply negb_true_iff in Hc.
  destruct (IH He) as (Hds & Hst & Hen).
  rewrite ends_slash_cons. refine (conj _ (conj Hc _)).
  - destruct e as [ | d e ]; [ done | ]. by rewrite Hc, Hds.
  - by destruct (decide (e = "")).
Qed.

Lemma join_names (l : list string) :
  Forall is_name l →
  double_slash (gopath.join l) = false
  ∧ starts_slash (gopath.join l) = false
  ∧ ends_slash (gopath.join l) = false
  ∧ (l ≠ [] → gopath.join l ≠ "").
Proof.
  induction l as [ | e l IH ]; [ done | ].
  intros [[Hne He] Hl]%Forall_cons.
  destruct (no_slash_plain e He) as (Hds & Hst & Hen).
  destruct l as [ | e' l ]; [ done | ].
  destruct (IH Hl) as (Hds' & Hst' & Hen' & Hne').
  change (gopath.join (e :: e' :: l))
    with (e +:+ "/" +:+ gopath.join (e' :: l)).
  assert ("/" +:+ gopath.join (e' :: l) ≠ "") as Hrest by done.
  refine (conj _ (conj _ (conj _ _))).
  - rewrite !double_slash_app, Hds, Hds', Hen, Hst'. done.
  - by destruct e.
  - rewrite ends_slash_app by done.
    rewrite ends_slash_app by (by apply Hne'). done.
  - intros _. by destruct e.
Qed.

Lemma elements_all_no_slash (s : string) :
  Forall (λ e, no_slash e = true) (gopath.elements s).
Proof.
  induction s as [ | c t IH ]; simpl; [ by repeat constructor | ].
  destruct (gopath.is_slash c) eqn:Hc; [ by constructor | ].
  destruct (gopath.elements t) as [ | e es ]; [ | apply Forall_cons in IH ].
  - repeat constructor. simpl. by rewrite Hc.
  - destruct IH as [He Hes]. constructor; [ | done ]. simpl.
    by rewrite Hc, He.
Qed.

Lemma clean_step_names (rooted : bool) (out : list string) (dotdot : nat)
    (e : string) :
  Forall is_name out → no_slash e = true →
  Forall is_name (gopath.clean_step rooted (out, dotdot) e).1.
Proof.
  intros Hout He. unfold gopath.clean_step.
  destruct (decide (e = "" ∨ e = ".")) as [ | Hplain ]; [ done | ].
  destruct (decide (e = "..")) as [ -> | ].
  - destruct (dotdot <? length out)%nat.
    + destruct out; [ done | by apply Forall_cons in Hout as [_ ?] ].
    + destruct rooted; [ done | ]. by constructor.
  - constructor; [ | done ]. split; [ | done ]. intros ->. apply Hplain.
    by left.
Qed.

Lemma foldl_clean_names (rooted : bool) (es : list string)
    (st : list string * nat) :
  Forall is_name st.1 → Forall (λ e, no_slash e = true) es →
  Forall is_name (foldl (gopath.clean_step rooted) st es).1.
Proof.
  revert st. induction es as [ | e es IH ]; intros [out dotdot] Hout Hes;
    [ done | ].
  apply Forall_cons in Hes as [He Hes]. simpl. apply IH; [ | done ].
  by apply clean_step_names.
Qed.

(** [Clean] of a rooted path: a slash and then names joined by single
    slashes. *)
Lemma Clean_rooted (c : ascii) (t : string) :
  gopath.is_slash c = true →
  ∃ body, gopath.Clean (String c t) = "/" +:+ body
          ∧ double_slash body = false
          ∧ starts_slash body = false
          ∧ ends_slash body = false.
Proof.
  intros Hc. unfold gopath.Clean. rewrite Hc.
  pose proof (foldl_clean_names true (gopath.elements (String c t)) ([], O)
                (Forall_nil_2 _) (elements_all_no_slash _)) as Hout.
  apply Forall_rev in Hout.
  destruct (join_names _ Hout) as (Hds & Hst & Hen & _).
  by eexists.
Qed.

(** The path the router redirects to never has two slashes in a row. *)
Lemma cleanPath_no_double_slash (p : string) :
  double_slash (mux.cleanPath p) = false.
Proof.
  destruct p as [ | c t ]; [ done | ]. unfold mux.cleanPath.
  assert (∃ c' t', (if gopath.is_slash c then String c t
                     else "/" +:+ String c t) = String c' t'
                    ∧ gopath.is_slash c' = true) as (c' & t' & -> & Hc').
  { destruct (gopath.is_slash c) eqn:Hc; by eexists _, _. }
  destruct (Clean_rooted c' t' Hc') as (body & -> & Hds & Hst & Hen).
  assert (double_slash ("/" +:+ body) = false) as Hnp.
  { rewrite double_slash_app, Hds, Hst. done. }
  destruct (mux.last_byte (String c' t')) as [ l | ]; [ | done ].
  destruct (gopath.is_slash l); [ | done ].
  case_bool_decide as Hroot; [ done | ]. cbn [andb negb].
  rewrite double_slash_app, Hnp.
  destruct body as [ | b body ]; [ done | ].
  rewrite ends_slash_app by done. by rewrite Hen.
Qed.

End NoDoubleSlash.

(** X24.  A request whose path has two slashes in a row is never routed:
    whatever the method, the answer is 301 with the cleaned path as
    [Location] and no body, and the storage is not used. *)
Theorem serve_double_slash {DB : Type} {C : sql.Conn DB} {D : json.Decoder}
    (req : mux.Incoming) (db : DB) :
  double_slash (mux.Path req) = true →
  let '(w, db') := serve http.newResponse req db in
  http.Status w = 301
  ∧ http.SentHeader w !! "Location"
    = Some [mux.WithPath req (mux.cleanPath (mux.Path req))]
  ∧ double_slash (mux.cleanPath (mux.Path req)) = false
  ∧ http.Body w = ""
  ∧ db' = db.
Proof.
  intros Hds. unfold serve, mux.ServeHTTP.
  rewrite decide_True.
  - by rewrite cleanPath_no_double_slash.
  - intros Heq. pose proof (cleanPath_no_double_slash (mux.Path req)) as Hc.
    rewrite Heq in Hc. congruence.
Qed.

(** X24 at [DELETE /pessoas//1]. *)
Lemma serve_double_slash_example :
  let '(w, db') :=
    serve http.newResponse (incoming "DELETE" "/pessoas//1" "" "") one_Ana in
  http.Status w = 301
  ∧ http.SentHeader w !! "Location" = Some ["/pessoas/1"]
  ∧ double_slash "/pessoas/1" = false
  ∧ http.Body w = ""
  ∧ db' = one_Ana.
Proof.
  exact (serve_double_slash (D := decoder.go_decoder)
           (incoming "DELETE" "/pessoas//1" "" "") one_Ana eq_refl).
Defined.

(** * The encoder and the decoder *)

Section RoundTrip.

Lemma append_assoc (a b c : string) : (a +:+ b) +:+ c = a +:+ b +:+ c.
Proof.
  induction a as [ | x a IH ]; [ done | ].
  change (String x ((a +:+ b) +:+ c) = String x (a +:+ b +:+ c)).
  by f_equal.
Qed.

Lemma length_append (a b : string) :
  String.length (a +:+ b) = (String.length a + String.length b)%nat.
Proof.
  induction a as [ | x a IH ]; [ done | ].
  change (S (String.length (a +:+ b))
          = S (String.length a + String.length b)). by f_equal.
Qed.

Lemma appendString_loop_ascii (c : ascii) (t : string) :
  byte_val c < 128 →
  json.appendString_loop O O (String c t)
  = enc_byte c +:+ json.appendString_loop O O t.
Proof.
  intros Hc. cbn [json.appendString_loop].
  rewrite (proj2 (Z.ltb_lt _ _)) by done. unfold enc_byte.
  by destruct (json.htmlSafeSet (byte_val c)).
Qed.

(** Reading back one encoded byte. *)
Lemma string_body_enc_byte (c : ascii) (fuel : nat) (rest : string) :
  byte_val c < 128 →
  decoder.string_body (S fuel) (enc_byte c +:+ rest)
  = '(r, rest') ← decoder.string_body fuel rest; Ok (String c r, rest').
Proof.
  destruct c as [[] [] [] [] [] [] [] []]; intros Hc;
    solve [ vm_compute in Hc; discriminate Hc | reflexivity ].
Qed.

Lemma enc_byte_length (c : ascii) : (1 ≤ String.length (enc_byte c))%nat.
Proof.
  unfold enc_byte, json.escape.
  repeat (match goal with |- context [if ?b then _ else _] => destruct b end);
    rewrite ?length_append; cbn; lia.
Qed.

Lemma appendString_loop_length (s : string) :
  ascii_text s = true →
  (String.length s ≤ String.length (json.appendString_loop O O s))%nat.
Proof.
  induction s as [ | c s IH ]; [ done | ].
  intros [Hc Hs]%andb_true_iff. apply Z.ltb_lt in Hc.
  rewrite appendString_loop_ascii, length_append by done.
  pose proof (enc_byte_length c). specialize (IH Hs). cbn. lia.
Qed.

(** Reading back an encoded ASCII text, up to its closing quote. *)
Lemma string_body_enc (s : string) (fuel : nat) (rest : string) :
  ascii_text s = true → (String.length s < fuel)%nat →
  decoder.string_body fuel
    (json.appendString_loop O O s +:+ dquote +:+ rest)
  = Ok (s, rest).
Proof.
  revert fuel. induction s as [ | c s IH ]; intros fuel Hs Hfuel.
  - destruct fuel as [ | fuel ]; [ cbn in Hfuel; lia | done ].
  - apply andb_true_iff in Hs as [Hc Hs]. apply Z.ltb_lt in Hc.
    destruct fuel as [ | fuel ]; [ cbn in Hfuel; lia | ].
    rewrite appendString_loop_ascii, append_assoc by done.
    rewrite string_body_enc_byte by done.
    rewrite IH by (done || (cbn in Hfuel; lia)). done.
Qed.

(** The decimal text of a positive number starts with a digit other than
    zero. *)
Lemma to_uint_head (p : positive) :
  ∃ c t, NilEmpty.string_of_uint (Pos.to_uint p) = String c t
         ∧ decoder.isDigit c = true
         ∧ decoder.isc c "0" = false
         ∧ decoder.isc c "-" = false.
Proof.
  assert (Decimal.unorm (Pos.to_uint p) = Pos.to_uint p) as Hnorm.
  { rewrite <- DecimalPos.Unsigned.to_of, DecimalPos.Unsigned.of_to. done. }
  pose proof (Unsigned.to_uint_nonnil p) as Hnil.
  pose proof (Unsigned.to_uint_nonzero p) as Hzero.
  destruct (Pos.to_uint p) as [ | d | d | d | d | d | d | d | d | d | d ];
    [ done | | by eexists _, _ .. ].
  exfalso. change (Decimal.unorm (Decimal.D0 d)) with (Decimal.unorm d)
    in Hnorm.
  assert (d ≠ Decimal.Nil) as Hd by (by intros ->).
  pose proof (DecimalFacts.nb_digits_unorm d Hd) as Hlen. rewrite Hnorm in Hlen.
  cbn in Hlen. lia.
Qed.

Lemma digits_uint (d : Decimal.uint) (t : string) :
  decoder.digits (NilEmpty.string_of_uint d +:+ "," +:+ t)
  = (NilEmpty.string_of_uint d, "," +:+ t).
Proof.
  induction d; [ done | .. ];
    match goal with
    | |- decoder.digits (NilEmpty.string_of_uint (?D ?d) +:+ ?r) = _ =>
        change (decoder.digits (NilEmpty.string_of_uint (D d) +:+ r))
          with (let '(ds, r') :=
                  decoder.digits (NilEmpty.string_of_uint d +:+ r) in
                (NilEmpty.string_of_uint (D Decimal.Nil) +:+ ds, r'))
    end; by rewrite IHd.
Qed.

(** Reading back the decimal text of an integer, before a comma. *)
Lemma number_Itoa (z : Z) (t : string) :
  decoder.number (strconv.Itoa z +:+ "," +:+ t)
  = Ok (strconv.Itoa z, "," +:+ t).
Proof.
  destruct z as [ | p | p ]; [ done | | ];
    unfold strconv.Itoa; cbn [Z.to_int NilZero.string_of_int];
    destruct (NilZero_string_of_uint_pos p) as [-> _];
    pose proof (digits_uint (Pos.to_uint p) t) as Hdigits;
    destruct (to_uint_head p) as (c & s & Hs & Hdigit & Hzero & Hminus);
    rewrite Hs in Hdigits |- *.
  - unfold decoder.number.
    change (String c s +:+ "," +:+ t) with (String c (s +:+ "," +:+ t)) in *.
    cbv beta iota. rewrite Hminus. cbv beta iota. rewrite Hzero, Hdigit.
    cbv beta iota. rewrite Hdigits. simpl. by rewrite !append_nil_r.
  - unfold decoder.number.
    change (String "-" (String c s) +:+ "," +:+ t)
      with (String "-" (String c (s +:+ "," +:+ t))).
    change (String c s +:+ "," +:+ t) with (String c (s +:+ "," +:+ t)) in *.
    cbv beta iota. change (decoder.isc "-" "-") with true. cbv beta iota.
    rewrite Hzero, Hdigit. cbv beta iota. rewrite Hdigits. simpl.
    by rewrite !append_nil_r.
Qed.

Lemma minus_or_digit (c : ascii) :
  decoder.isc c "-" || decoder.isDigit c = true →
  decoder.isSpace c = false
  ∧ decoder.isc c "{" = false
  ∧ decoder.isc c "[" = false
  ∧ (byte_val c =? 34) = false.
Proof.
  destruct c as [[] [] [] [] [] [] [] []]; intros Hc;
    solve [ vm_compute in Hc; discriminate Hc | by vm_compute ].
Qed.

Lemma Itoa_head (z : Z) :
  ∃ c n, strconv.Itoa z = String c n
         ∧ decoder.isc c "-" || decoder.isDigit c = true.
Proof.
  destruct z as [ | p | p ]; [ by eexists _, _ | | by eexists _, _ ].
  unfold strconv.Itoa. cbn [Z.to_int NilZero.string_of_int].
  destruct (NilZero_string_of_uint_pos p) as [-> _].
  destruct (to_uint_head p) as (c & s & -> & Hdigit & _ & _).
  exists c, s. by rewrite Hdigit, orb_true_r.
Qed.

(** The text of [Marshal_Pessoa], piece by piece. *)
Lemma Marshal_Pessoa_pieces (p : Pessoa) (rest : string) :
  json.Marshal_Pessoa p +:+ rest
  = "{" +:+ dquote +:+ "id" +:+ dquote +:+ ":" +:+ strconv.Itoa (ID p)
      +:+ "," +:+ dquote +:+ "nome" +:+ dquote +:+ ":" +:+ dquote
      +:+ json.appendString_loop O O (Nome p) +:+ dquote +:+ "}" +:+ rest.
Proof.
  unfold json.Marshal_Pessoa, json.appendString.
  by rewrite !append_assoc.
Qed.

(** ** Reading back what the encoder wrote *)

Lemma next_cons (c : ascii) (t : string) :
  decoder.isSpace c = false → decoder.next (String c t) = Ok (c, t).
Proof. intros Hc. unfold decoder.next. cbn [decoder.skipSpace]. by rewrite Hc. Qed.

Lemma bind_Ok {A B : Type} (a : A) (f : A → result B) : (Ok a ≫= f) = f a.
Proof. done. Qed.

(** An object that is not empty: its members follow the brace. *)
Lemma parse_value_object (fuel : nat) (c : ascii) (t : string) :
  decoder.isSpace c = false → decoder.isc c "}" = false →
  decoder.parse_value (S fuel) 0 (String "{" (String c t))
  = decoder.parse_members fuel 1 (String c t) [].
Proof.
  intros Hsp Hc. cbn [decoder.parse_value].
  rewrite next_cons, bind_Ok by done.
  change (decoder.isc "{" "{") with true. cbv iota.
  change (decoder.maxNestingDepth <? 0 + 1) with false. cbv iota.
  by rewrite next_cons, bind_Ok, Hc by done.
Qed.

(** A number at the head of the text. *)
Lemma parse_value_number (fuel : nat) (depth : Z) (c : ascii)
    (t lit r : string) :
  decoder.isc c "-" || decoder.isDigit c = true →
  decoder.number (String c t) = Ok (lit, r) →
  decoder.parse_value (S fuel) depth (String c t) = Ok (decoder.Number lit, r).
Proof.
  intros Hc Hnum.
  destruct (minus_or_digit c Hc) as (Hsp & Hbrace & Hbracket & Hquote).
  cbn [decoder.parse_value].
  by rewrite next_cons, bind_Ok, Hbrace, Hbracket, Hquote, Hc, Hnum by done.
Qed.

(** A string literal at the head of the text. *)
Lemma parse_value_string (fuel : nat) (depth : Z) (t s r : string) :
  decoder.string_body (String.length t) t = Ok (s, r) →
  decoder.parse_value (S fuel) depth (String (byte_of 34) t)
  = Ok (decoder.Str s, r).
Proof.
  intros Hs. cbn [decoder.parse_value].
  rewrite next_cons, bind_Ok by done.
  change (decoder.isc (byte_of 34) "{") with false.
  change (decoder.isc (byte_of 34) "[") with false.
  change (byte_val (byte_of 34) =? 34) with true. cbv iota.
  by rewrite Hs.
Qed.

(** One member of an object: a key, a colon, a value, and a comma or the
    closing brace. *)
Lemma parse_members_member (fuel : nat) (depth : Z) (t key t1 t2 : string)
    (v : decoder.value) (sep : ascii) (acc : list (string * decoder.value)) :
  decoder.string_body (String.length t) t = Ok (key, String ":" t1) →
  decoder.parse_value fuel depth t1 = Ok (v, String sep t2) →
  decoder.isSpace sep = false →
  decoder.parse_members (S fuel) depth (String (byte_of 34) t) acc
  = if decoder.isc sep ","
    then decoder.parse_members fuel depth t2 (acc ++ [(key, v)])
    else if decoder.isc sep "}"
         then Ok (decoder.Object (acc ++ [(key, v)]), t2)
         else Err (decoder.SyntaxError sep "after object key:value pair").
Proof.
  intros Hkey Hv Hsep. cbn [decoder.parse_members].
  rewrite next_cons, bind_Ok by done.
  change (negb (byte_val (byte_of 34) =? 34)) with false. cbv iota.
  rewrite Hkey, bind_Ok, next_cons, bind_Ok by done.
  change (negb (decoder.isc ":" ":")) with false. cbv iota.
  by rewrite Hv, bind_Ok, next_cons, bind_Ok by done.
Qed.

(** The value the parser reads from the text of [Marshal_Pessoa]. *)
Lemma parse_Pessoa (p : Pessoa) (fuel : nat) (rest : string) :
  ascii_text (Nome p) = true → (4 ≤ fuel)%nat →
  decoder.parse_value fuel 0 (json.Marshal_Pessoa p +:+ rest)
  = Ok (decoder.Object [("id", decoder.Number (strconv.Itoa (ID p)));
                        ("nome", decoder.Str (Nome p))], rest).
Proof.
  intros Hname Hfuel.
  do 4 (destruct fuel as [ | fuel ]; [ lia | ]). clear Hfuel.
  rewrite Marshal_Pessoa_pieces.
  pose proof (number_Itoa (ID p)) as Hnum.
  destruct (Itoa_head (ID p)) as (c & n & Hitoa & Hc).
  pose proof (λ fuel rest, string_body_enc (Nome p) fuel rest Hname) as Hstr.
  pose proof (appendString_loop_length (Nome p) Hname) as Hlen.
  revert Hnum Hstr Hlen. generalize (json.appendString_loop 0 0 (Nome p)).
  rewrite Hitoa. intros enc Hnum Hstr Hlen.
  set (q := byte_of 34).
  change ("{" +:+ dquote +:+ "id" +:+ dquote +:+ ":" +:+ String c n +:+ ","
          +:+ dquote +:+ "nome" +:+ dquote +:+ ":" +:+ dquote +:+ enc
          +:+ dquote +:+ "}" +:+ rest)
    with (String "{" (String q (String "i" (String "d" (String q (String ":"
           (String c (n +:+ String "," (String q (String "n" (String "o"
             (String "m" (String "e" (String q (String ":" (String q
               (enc +:+ String q (String "}" rest)))))))))))))))))).
  rewrite parse_value_object by done.
  erewrite (parse_members_member _ _ _ "id" _ _ (decoder.Number (String c n)) ",");
    [ | reflexivity | | done ]; cycle 1.
  { apply parse_value_number; [ done | ]. apply (Hnum _). }
  change (decoder.isc "," ",") with true. cbv iota.
  erewrite (parse_members_member _ _ _ "nome" _ _ (decoder.Str (Nome p)) "}");
    [ done | reflexivity | | done ].
  apply parse_value_string.
  apply (Hstr _ (String "}" rest)).
  rewrite length_append. cbn [String.length]. lia.
Qed.

Lemma Marshal_Pessoa_length (p : Pessoa) (rest : string) :
  (3 ≤ String.length (json.Marshal_Pessoa p +:+ rest))%nat.
Proof.
  rewrite Marshal_Pessoa_pieces, !length_append.
  change (String.length "{") with 1%nat.
  change (String.length dquote) with 1%nat.
  change (String.length "id") with 2%nat. lia.
Qed.

Lemma Marshal_Pessoa_head (p : Pessoa) (rest : string) :
  ∃ t, json.Marshal_Pessoa p +:+ rest = String "{" t.
Proof. rewrite Marshal_Pessoa_pieces. by eexists. Qed.

(** The decoder reads back what the encoder wrote for a Person. *)
Lemma Decode_Marshal_Pessoa (p p0 : Pessoa) (rest : string) :
  ascii_text (Nome p) = true → in_int64 (ID p) = true →
  decoder.Decode (json.Marshal_Pessoa p +:+ rest) p0 = Ok p.
Proof.
  intros Hname Hid. unfold decoder.Decode.
  rewrite parse_Pessoa
    by (done || (pose proof (Marshal_Pessoa_length p rest); lia)).
  destruct (Marshal_Pessoa_head p rest) as [t ->].
  cbn [decoder.skipSpace]. change (decoder.isSpace "{") with false.
  cbv iota. rewrite bind_Ok.
  cbn [decoder.unmarshal decoder.store_members].
  rewrite decide_True by done. cbn [decoder.store_ID].
  rewrite Atoi_Itoa by done.
  rewrite decide_False, decide_True by done. cbn [decoder.store_Nome].
  by destruct p.
Qed.

Lemma wf_in_int64 (db : mysql.Server) (id : Z) (nome : string) :
  wf db → mysql.individuos db !! id = Some nome → in_int64 id = true.
Proof.
  intros [_ Hids] Hrow. specialize (Hids _ _ Hrow).
  unfold in_int64, minInt64, maxInt64, mysql.maxINT in *.
  apply andb_true_iff; split; apply Z.leb_le; lia.
Qed.

(** X25.  Round trip of a response through the decoder of the handlers:
    the body [obterPessoa] answers for a stored row whose name is ASCII
    text is decoded by [json.NewDecoder(..).Decode], as [adicionarPessoa]
    and [modificarPessoa] call it, to the Person of that row, id and name,
    whatever the struct held before. *)
Theorem obterPessoa_body_decodes (r : http.Request) (db : mysql.Server)
    (id : Z) (nome : string) (p0 : Pessoa) :
  wf db → mysql.alive db = true →
  mysql.individuos db !! id = Some nome →
  ascii_text nome = true →
  http.var r "id" = strconv.Itoa id →
  decoder.Decode (http.Body (obterPessoa http.newResponse r db).1) p0
  = Ok {| ID := id; Nome := nome |}.
Proof.
  intros Hwf Halive Hrow Hname Hid. unfold obterPessoa. rewrite Hid.
  rewrite (QueryRow_Scan_Itoa db id nome) by done.
  apply (Decode_Marshal_Pessoa {| ID := id; Nome := nome |}); [ done | ].
  by eapply wf_in_int64.
Qed.

(** X25 at [GET /pessoas/1] on the table that holds [(1, "Ana")]. *)
Lemma obterPessoa_body_decodes_Ana :
  decoder.Decode
    (http.Body (obterPessoa http.newResponse (at_id "1") one_Ana).1)
    zeroPessoa
  = Ok {| ID := 1; Nome := "Ana" |}.
Proof.
  exact (obterPessoa_body_decodes (at_id "1") one_Ana 1 "Ana" zeroPessoa
           wf_one_Ana eq_refl eq_refl eq_refl eq_refl).
Defined.

(** X26.  Sending back with [PUT /pessoas/{id}] the body that
    [GET /pessoas/{id}] has just answered is answered 404
    [Pessoa não encontrada]: the name is the stored one, the [UPDATE]
    changes no row, and the table stays as it was. *)
Theorem obterPessoa_then_modificarPessoa (r r' : http.Request)
    (db : mysql.Server) (id : Z) (nome : string) :
  wf db → mysql.alive db = true →
  mysql.individuos db !! id = Some nome →
  ascii_text nome = true →
  mysql.CHAR_LENGTH nome ≤ 255 →
  http.var r "id" = strconv.Itoa id →
  http.var r' "id" = strconv.Itoa id →
  http.Get (http.ReqHeader r') "Content-Type" = "application/json" →
  http.ReqBody r' = http.Body (obterPessoa http.newResponse r db).1 →
  let '(w, db') :=
    modificarPessoa http.newResponse r' db in
  http.Status w = 404
  ∧ http.Body w = "Pessoa não encontrada" +:+ newline
  ∧ db' = db.
Proof.
  intros Hwf Halive Hrow Hname Hlen Hid Hid' Hct Hbody.
  pose proof (wf_in_int64 _ _ _ Hwf Hrow) as Hint.
  unfold modificarPessoa.
  rewrite decide_False by (by intros Hne).
  rewrite Hid', Atoi_Itoa by done.
  unfold json.Decode, decoder.go_decoder. rewrite Hbody.
  unfold obterPessoa. rewrite Hid.
  rewrite (QueryRow_Scan_Itoa db id nome) by done.
  change (http.Body (json.Encode_Pessoa _ _, db).1)
    with (json.Marshal_Pessoa {| ID := id; Nome := nome |} +:+ newline).
  rewrite (Decode_Marshal_Pessoa {| ID := id; Nome := nome |}) by done.
  cbn.
  unfold mysql.Exec. rewrite Halive. cbn [negb].
  rewrite decide_True by done. unfold mysql.update. rewrite Hrow.
  rewrite (proj2 (Z.ltb_ge _ _)) by done. by rewrite decide_True.
Qed.

(** X26 at [GET /pessoas/1] and then [PUT /pessoas/1] on the table that
    holds [(1, "Ana")]. *)
Lemma obterPessoa_then_modificarPessoa_Ana :
  let '(w, db') :=
    modificarPessoa http.newResponse
      (PUT "1" "application/json"
         (http.Body (obterPessoa http.newResponse (at_id "1") one_Ana).1))
      one_Ana in
  http.Status w = 404
  ∧ http.Body w = "Pessoa não encontrada" +:+ newline
  ∧ db' = one_Ana.
Proof.
  refine (obterPessoa_then_modificarPessoa (at_id "1")
            (PUT "1" "application/json"
               (http.Body (obterPessoa http.newResponse (at_id "1") one_Ana).1))
            one_Ana 1 "Ana" wf_one_Ana eq_refl eq_refl eq_refl _ eq_refl
            eq_refl eq_refl eq_refl).
  vm_compute. discriminate.
Defined.

End RoundTrip.
